(** * The init supervisor of init_main_v3.c

    A shallow embedding of the third revision of the init program
    (src/init_main_v3.c): the process table, the dependency check, the
    spawner with its retry wrapper, the SIGCHLD handler, the health scan,
    the runlevel switch and the inittab reader, followed by the properties
    the specification states about them.

    Conventions.  C strings are Rocq strings (the bytes before the
    terminating NUL).  [int] values that the program compares or stores
    ([runlevel], [pid], the two limits) are integers of [Z]; the one place
    where the program does arithmetic on an [int] ([cpu_limit * 10000])
    writes the 32-bit wrap-around out.  [process_count] and loop indices are
    natural numbers: the program only ever assigns 0 to the counter or
    increments it below [MAX_PROCESSES].  Everything the program does to the
    outside (the log file, fork, kill, sleep, the cgroup files) is recorded
    in, or read from, explicit components of the system state.  The
    operations run one after the other: a signal is handled between two of
    them, not in the middle of one. *)

From Stdlib Require Import ZArith Lia Ascii String DecimalString.
From stdpp Require Import base list strings gmap.

Local Open Scope string_scope.

(** ** Constants of the program (the #define lines) *)

Definition MAX_PROCESSES : nat := 10.
Definition CONFIG_FILE : string := "/etc/inittab".
Definition LOG_FILE : string := "/var/log/init.log".
Definition MAX_RUNLEVELS : Z := 5.
Definition HEALTH_CHECK_INTERVAL : nat := 5.

(** ** The C library functions the program calls *)

Module CLib.

(** [strcmp (a, b) == 0]. *)
Definition strcmp_eq (a b : string) : bool := String.eqb a b.

(** [strncpy (dest, src, n)] into a zeroed buffer of [n] bytes: the first [n]
    bytes of [src].  For a source shorter than [n] bytes this is the string
    the program later reads from the buffer.  When [src] has [n] bytes or
    more the C buffer is left without a terminator and what [strcmp] or
    [strdup] read from it runs on into the fields that follow; the model
    keeps the [n] bytes that were copied, and the statements about what a
    recorded string compares to are made for sources shorter than [n]. *)
Definition strncpy (n : nat) (src : string) : string := String.substring 0 n src.

(** [snprintf (buf, size, ...)]: the formatted text cut to [size - 1] bytes. *)
Definition snprintf (size : nat) (text : string) : string :=
  String.substring 0 (size - 1) text.

(** The text [printf]'s [%d] produces for an integer. *)
Definition fmt_d (z : Z) : string := NilZero.string_of_int (Z.to_int z).

(** A C [int] after 32-bit two's complement wrap-around. *)
Definition wrap_int (z : Z) : Z := ((z + 2 ^ 31) mod 2 ^ 32 - 2 ^ 31)%Z.

(** The successive results of [strtok (copy, delim)], [strtok (NULL, delim)],
    ... up to the first NULL: the maximal non-empty runs of characters other
    than the delimiter.  [cur] is the run being read. *)
Fixpoint strtok_from (delim : ascii) (cur : string) (s : string) : list string :=
  match s with
  | EmptyString => if String.eqb cur "" then [] else [cur]
  | String c s' =>
      if Ascii.eqb c delim
      then (if String.eqb cur "" then strtok_from delim "" s'
            else cur :: strtok_from delim "" s')
      else strtok_from delim (cur ++ String c "") s'
  end.

Definition strtok_all (delim : ascii) (s : string) : list string :=
  strtok_from delim "" s.

(** [fgets (buf, size, f)] on the unread part [s] of a file: NULL at end of
    file, else the line read (at most [size - 1] bytes, ending after the
    first newline) and what is left of the file. *)
Fixpoint fgets_take (room : nat) (s : string) : string * string :=
  match room, s with
  | O, _ => ("", s)
  | _, EmptyString => ("", "")
  | S room', String c s' =>
      if Ascii.eqb c "010" then (String c "", s')
      else let '(l, r) := fgets_take room' s' in (String c l, r)
  end.

Definition fgets (size : nat) (s : string) : option (string * string) :=
  match s with
  | EmptyString => None
  | _ => Some (fgets_take (size - 1) s)
  end.

End CLib.

(** ** [sscanf], for the directives the program uses *)

Module Scanf.

Inductive directive :=
  | Dspace      (* white space in the format *)
  | Dint        (* %d *)
  | Dnotnl.     (* %[^\n] *)

Inductive item :=
  | Iint (z : Z)
  | Istr (s : string).

Inductive scanned (A : Type) :=
  | Matched (a : A) (rest : string)
  | InputFailure
  | MatchingFailure.
Arguments Matched {A} a rest.
Arguments InputFailure {A}.
Arguments MatchingFailure {A}.

Definition EOF : Z := (-1)%Z.

Definition isspace (c : ascii) : bool :=
  let n := nat_of_ascii c in (n =? 32)%nat || ((9 <=? n)%nat && (n <=? 13)%nat).

Definition isdigit (c : ascii) : bool :=
  let n := nat_of_ascii c in (48 <=? n)%nat && (n <=? 57)%nat.

Definition digit_value (c : ascii) : Z := (Z.of_nat (nat_of_ascii c) - 48)%Z.

Fixpoint skip_space (s : string) : string :=
  match s with
  | String c s' => if isspace c then skip_space s' else s
  | EmptyString => s
  end.

(** The longest run of decimal digits at the head of [s], read into [acc]. *)
Fixpoint scan_digits (acc : Z) (s : string) : Z * string :=
  match s with
  | String c s' =>
      if isdigit c then scan_digits (10 * acc + digit_value c)%Z s' else (acc, s)
  | EmptyString => (acc, s)
  end.

(** [%d]: skips white space, then reads an optional sign and at least one
    digit.  A value outside the range of [int] is undefined in C; the model
    returns the integer that was written. *)
Definition scan_int (s : string) : scanned Z :=
  match skip_space s with
  | EmptyString => InputFailure
  | String c r =>
      let '(neg, body) :=
        if Ascii.eqb c "-" then (true, r)
        else if Ascii.eqb c "+" then (false, r)
        else (false, String c r) in
      match body with
      | String d _ =>
          if isdigit d
          then let '(v, rest) := scan_digits 0 body in
               Matched (if neg then (- v)%Z else v) rest
          else MatchingFailure
      | EmptyString => MatchingFailure
      end
  end.

(** The longest run of characters other than newline at the head of [s]. *)
Fixpoint take_notnl (s : string) : string * string :=
  match s with
  | String c s' =>
      if Ascii.eqb c "010" then ("", s)
      else let '(t, r) := take_notnl s' in (String c t, r)
  | EmptyString => ("", s)
  end.

(** [%[^\n]]: no white space is skipped; at least one character must match. *)
Definition scan_notnl (s : string) : scanned string :=
  match s with
  | EmptyString => InputFailure
  | String c _ =>
      if Ascii.eqb c "010" then MatchingFailure
      else let '(t, r) := take_notnl s in Matched t r
  end.

(** What [sscanf] returns when a directive fails after [got] was assigned. *)
Definition stop_input (got : list item) : Z * list item :=
  (match got with [] => EOF | _ => Z.of_nat (length got) end, got).

Definition stop_matching (got : list item) : Z * list item :=
  (Z.of_nat (length got), got).

(** [sscanf (input, fmt, ...)]: the return value and the items assigned, in
    the order of the conversions. *)
Fixpoint sscanf (fmt : list directive) (input : string) (got : list item)
  : Z * list item :=
  match fmt with
  | [] => (Z.of_nat (length got), got)
  | Dspace :: fmt' => sscanf fmt' (skip_space input) got
  | Dint :: fmt' =>
      match scan_int input with
      | Matched z rest => sscanf fmt' rest (got ++ [Iint z])
      | InputFailure => stop_input got
      | MatchingFailure => stop_matching got
      end
  | Dnotnl :: fmt' =>
      match scan_notnl input with
      | Matched t rest => sscanf fmt' rest (got ++ [Istr t])
      | InputFailure => stop_input got
      | MatchingFailure => stop_matching got
      end
  end.

(** The format of init_processes: ["%d %[^\n] %[^\n] %d %d"]. *)
Definition inittab_format : list directive :=
  [Dint; Dspace; Dnotnl; Dspace; Dnotnl; Dspace; Dint; Dspace; Dint].

End Scanf.

(** ** The process table and the program's globals *)

(** [Process], field for field. *)
Record Process := mkProcess {
  pid : Z;
  command : string;
  runlevel : Z;
  active : bool;
  dependencies : string;
  state : string;
  health_pipe : Z * Z;
  memory_limit : Z;
  cpu_limit : Z
}.

(** A slot of the zero-initialised global array. *)
Definition zero_process : Process :=
  mkProcess 0 "" 0 false "" "" (0%Z, 0%Z) 0 0.

(** What [fork ()] returns in the supervisor: a negative value, or the pid of
    the child.  The branch [pid == 0] runs in the child, see [child_branch]. *)
Inductive fork_result :=
  | fork_error
  | fork_child (child : positive).

(** The globals [processes], [process_count] and [current_runlevel], and the
    program's dealings with the outside: the lines handed to [log_message],
    the contents of CONFIG_FILE (None when it cannot be opened), what the
    n-th call of [fork] returns and how many calls were made, the pids that
    were sent SIGTERM, and the seconds spent in [sleep]. *)
Record System := mkSystem {
  processes : list Process;
  process_count : nat;
  current_runlevel : Z;
  log_lines : list (string * string);
  config : option string;
  fork_oracle : nat -> fork_result;
  fork_calls : nat;
  sigterm_sent : list Z;
  seconds_slept : nat
}.

Definition set_table (ps : list Process) (n : nat) (st : System) : System :=
  mkSystem ps n (current_runlevel st) (log_lines st) (config st)
    (fork_oracle st) (fork_calls st) (sigterm_sent st) (seconds_slept st).

Definition set_process_count (n : nat) (st : System) : System :=
  set_table (processes st) n st.

Definition set_current_runlevel (r : Z) (st : System) : System :=
  mkSystem (processes st) (process_count st) r (log_lines st) (config st)
    (fork_oracle st) (fork_calls st) (sigterm_sent st) (seconds_slept st).

Definition count_fork (st : System) : System :=
  mkSystem (processes st) (process_count st) (current_runlevel st)
    (log_lines st) (config st) (fork_oracle st) (S (fork_calls st))
    (sigterm_sent st) (seconds_slept st).

Definition kill_sigterm (pids : list Z) (st : System) : System :=
  mkSystem (processes st) (process_count st) (current_runlevel st)
    (log_lines st) (config st) (fork_oracle st) (fork_calls st)
    (sigterm_sent st ++ pids) (seconds_slept st).

Definition sleep (seconds : nat) (st : System) : System :=
  mkSystem (processes st) (process_count st) (current_runlevel st)
    (log_lines st) (config st) (fork_oracle st) (fork_calls st)
    (sigterm_sent st) (seconds_slept st + seconds).

(** [log_message (level, message)].  The line reaches LOG_FILE when the file
    can be opened; the model records the line that is handed over. *)
Definition log_message (level message : string) (st : System) : System :=
  mkSystem (processes st) (process_count st) (current_runlevel st)
    (log_lines st ++ [(level, message)]) (config st)
    (fork_oracle st) (fork_calls st) (sigterm_sent st) (seconds_slept st).

(** The records the loops [for (i = 0; i < process_count; i++)] visit. *)
Definition live (st : System) : list Process :=
  take (process_count st) (processes st).

(** The system before [main] runs: ten zeroed slots, no process, runlevel 0. *)
Definition boot_state (cfg : option string) (oracle : nat -> fork_result) : System :=
  mkSystem (replicate MAX_PROCESSES zero_process) 0 0 [] cfg oracle 0 [] 0.

(** [active = false; strncpy (state, "stopped", sizeof state)]. *)
Definition mark_stopped (p : Process) : Process :=
  mkProcess (pid p) (command p) (runlevel p) false (dependencies p)
    (CLib.strncpy 32 "stopped") (health_pipe p) (memory_limit p) (cpu_limit p).

(** ** The lines built with [snprintf (log_msg, sizeof log_msg, ...)] *)

Definition finished_message (command : string) (child : Z) : string :=
  CLib.snprintf 512
    ("Process " ++ command ++ " (PID " ++ CLib.fmt_d child ++ ") finished").

Definition unmet_message (command : string) : string :=
  CLib.snprintf 512 ("Cannot start " ++ command ++ ": dependencies not satisfied").

Definition started_message (command : string) (child runlevel : Z) : string :=
  CLib.snprintf 512
    ("Started process: " ++ command ++ " with PID: " ++ CLib.fmt_d child
     ++ " for runlevel: " ++ CLib.fmt_d runlevel).

Definition switching_message (old_runlevel new_runlevel : Z) : string :=
  CLib.snprintf 512
    ("Switching from runlevel " ++ CLib.fmt_d old_runlevel
     ++ " to " ++ CLib.fmt_d new_runlevel).

Definition restarting_message (command : string) : string :=
  CLib.snprintf 512 ("Restarting process: " ++ command).

(** ** handle_signal *)

Definition SIGCHLD : Z := 17.
Definition SIGTERM : Z := 15.
Definition SIGHUP : Z := 1.

(** The body of the [while (1)] loop for one pid returned by [waitpid]: the
    first record below [process_count] that holds the pid is logged and
    marked stopped. *)
Definition reap_child (child : Z) (st : System) : System :=
  match list_find (fun p => pid p = child) (live st) with
  | Some (i, p) =>
      let st1 := log_message "INFO" (finished_message (command p) child) st in
      set_table (<[i := mark_stopped p]> (processes st1)) (process_count st1) st1
  | None => st
  end.

(** The loop over the results of [waitpid (-1, NULL, WNOHANG)].  [waited]
    lists, in order, the children the kernel has to report, each with its
    exit status; the status pointer is NULL, so only the pid reaches the
    program.  The loop ends at the first result that is not positive, or
    when nothing is left to report. *)
Fixpoint reap_loop (waited : list (Z * Z)) (st : System) : System :=
  match waited with
  | [] => st
  | (child, _) :: more =>
      if (child <=? 0)%Z then st else reap_loop more (reap_child child st)
  end.

Definition handle_signal (sig : Z) (waited : list (Z * Z)) (st : System) : System :=
  if (sig =? SIGCHLD)%Z then reap_loop waited st else st.

(** ** check_all_dependencies_active *)

(** The inner [for] loop: some record below [process_count] has the command
    [dep] and the state "running". *)
Definition dependency_running (dep : string) (st : System) : bool :=
  existsb
    (fun p => CLib.strcmp_eq (command p) dep && CLib.strcmp_eq (state p) "running")
    (live st).

(** The [while (dep)] loop over the tokens, leaving at the first one that is
    not found. *)
Fixpoint all_dependencies_found (deps : list string) (st : System) : bool :=
  match deps with
  | [] => true
  | dep :: more =>
      if dependency_running dep st then all_dependencies_found more st else false
  end.

Definition check_all_dependencies_active (dependencies : string) (st : System) : bool :=
  all_dependencies_found (CLib.strtok_all "," dependencies) st.

(** ** set_resource_limits *)

Definition MEMORY_LIMIT_FILE : string :=
  "/sys/fs/cgroup/memory/my_cgroup/memory.limit_in_bytes".
Definition CPU_QUOTA_FILE : string :=
  "/sys/fs/cgroup/cpu/my_cgroup/cpu.cfs_quota_us".
Definition CGROUP_PROCS_FILE : string :=
  "/sys/fs/cgroup/memory/my_cgroup/cgroup.procs".

(** One [fprintf] to a file that [fopen] opened in mode [mode]. *)
Record file_write := mkWrite {
  path : string;
  mode : string;
  text : string
}.

(** [fopen (path, mode)] followed by [if (f) { fprintf (f, "%d", value); }]. *)
Definition write_if_open (fopen_ok : string -> bool) (p m : string) (value : Z)
  : list file_write :=
  if fopen_ok p then [mkWrite p m (CLib.fmt_d value)] else [].

(** The writes [set_resource_limits (pid, memory_limit, cpu_limit)] makes,
    in order, where [fopen_ok] tells which files can be opened. *)
Definition set_resource_limits (fopen_ok : string -> bool)
    (self : Z) (memory_limit cpu_limit : Z) : list file_write :=
  write_if_open fopen_ok MEMORY_LIMIT_FILE "w" memory_limit
  ++ write_if_open fopen_ok CPU_QUOTA_FILE "w" (CLib.wrap_int (cpu_limit * 10000))
  ++ write_if_open fopen_ok CGROUP_PROCS_FILE "a" self.

(** ** start_process and start_process_with_retry *)

(** The return statement [start_process] leaves by.  The C function returns
    nothing; the four ways out differ in the line they log. *)
Inductive start_result :=
  | Started (child : Z)
  | CapacityExceeded
  | DependenciesUnmet
  | ForkFailed.

(** The record the parent writes into slot [process_count].  Its command
    and dependencies are the strings given when these are shorter than 256
    bytes, see [CLib.strncpy]. *)
Definition new_process (child : Z) (command : string) (runlevel : Z)
    (dependencies : string) (memory_limit cpu_limit : Z) : Process :=
  mkProcess child (CLib.strncpy 256 command) runlevel true
    (CLib.strncpy 256 dependencies) "running" (0%Z, 0%Z) memory_limit cpu_limit.

(** The branch [pid == 0]: the child caps itself and executes the command. *)
Definition child_branch (fopen_ok : string -> bool) (self : Z)
    (command : string) (memory_limit cpu_limit : Z) : list file_write * string :=
  (set_resource_limits fopen_ok self memory_limit cpu_limit, command).

Definition start_process (command : string) (runlevel : Z) (dependencies : string)
    (memory_limit cpu_limit : Z) (st : System) : start_result * System :=
  if (MAX_PROCESSES <=? process_count st)%nat then
    (CapacityExceeded, log_message "ERROR" "Max processes reached" st)
  else if negb (check_all_dependencies_active dependencies st) then
    (DependenciesUnmet, log_message "WARNING" (unmet_message command) st)
  else
    match fork_oracle st (fork_calls st) with
    | fork_error =>
        (ForkFailed, log_message "ERROR" "Failed to fork process" (count_fork st))
    | fork_child child =>
        let st1 := count_fork st in
        let p := new_process (Z.pos child) command runlevel dependencies
                   memory_limit cpu_limit in
        let st2 := set_table (<[process_count st1 := p]> (processes st1))
                     (S (process_count st1)) st1 in
        (Started (Z.pos child),
         log_message "INFO" (started_message command (Z.pos child) runlevel) st2)
    end.

(** The [for] loop of the retry wrapper with [attempts] iterations left.
    Nothing changes the table while the wrapper sleeps: a SIGCHLD that
    arrives during [sleep] is an event of its own, handled after the loop. *)
Fixpoint retry_loop (attempts : nat) (command : string) (runlevel : Z)
    (dependencies : string) (memory_limit cpu_limit : Z) (st : System)
  : bool * System :=
  match attempts with
  | O => (false, log_message "ERROR" "Failed to start process after retries" st)
  | S attempts' =>
      if check_all_dependencies_active dependencies st then
        (true, snd (start_process command runlevel dependencies
                      memory_limit cpu_limit st))
      else
        retry_loop attempts' command runlevel dependencies memory_limit cpu_limit
          (sleep 1 st)
  end.

Definition start_process_with_retry (command : string) (runlevel : Z)
    (dependencies : string) (memory_limit cpu_limit : Z) (max_retries : Z)
    (st : System) : bool * System :=
  retry_loop (Z.to_nat max_retries) command runlevel dependencies
    memory_limit cpu_limit st.

(** ** init_processes *)

(** Lines 179-181: what the loop does with the five values of a line that
    [sscanf] accepted. *)
Definition init_processes_entry (runlevel : Z) (command dependencies : string)
    (memory_limit cpu_limit : Z) (st : System) : System :=
  if (runlevel =? current_runlevel st)%Z then
    snd (start_process_with_retry command runlevel dependencies
           memory_limit cpu_limit 3 st)
  else st.

(** The body of the [while (fgets (...))] loop for one line: the entry is
    used when [sscanf] returns 5, that is, when all five conversions were
    assigned.  The strings are taken as scanned; [%[^\n]] has no width, and a
    run of more than 255 bytes, which overflows the C arrays, is outside the
    model: this is the loop body for a line of at most 255 bytes (see
    [file_fits]). *)
Definition init_processes_line (line : string) (st : System) : System :=
  match Scanf.sscanf Scanf.inittab_format line [] with
  | (5%Z, [Scanf.Iint runlevel; Scanf.Istr command; Scanf.Istr dependencies;
           Scanf.Iint memory_limit; Scanf.Iint cpu_limit]) =>
      init_processes_entry runlevel command dependencies memory_limit cpu_limit st
  | _ => st
  end.

(** The lines [fgets (line, 512, config)] returns until it returns NULL.
    Every call takes at least one byte, so [fuel] equal to the length of the
    file reaches its end ([fgets_lines_whole_file] below). *)
Fixpoint fgets_lines (fuel : nat) (unread : string) : list string :=
  match fuel with
  | O => []
  | S fuel' =>
      match CLib.fgets 512 unread with
      | None => []
      | Some (line, rest) => line :: fgets_lines fuel' rest
      end
  end.

Definition config_lines (content : string) : list string :=
  fgets_lines (String.length content) content.

Definition init_processes (st : System) : System :=
  match config st with
  | None => log_message "ERROR" "Could not open configuration file" st
  | Some content =>
      foldl (fun s line => init_processes_line line s) st (config_lines content)
  end.

(** ** switch_runlevel, reload_configuration, graceful_shutdown *)

(** The loop that terminates the active records below [process_count]:
    SIGTERM, [waitpid], then the record is marked stopped.  This is the loop
    when every [waitpid] returns and the SIGCHLD handler marks no record
    while the loop waits; [stop_active_waiting] below is the loop with its
    waits. *)
Definition stop_active (st : System) : System :=
  let n := process_count st in
  let ps := processes st in
  set_table
    (map (fun p => if active p then mark_stopped p else p) (take n ps) ++ drop n ps)
    n
    (kill_sigterm (map pid (filter (fun p => active p = true) (take n ps))) st).

Definition switch_runlevel (new_runlevel : Z) (st : System) : System :=
  if (new_runlevel <? 0)%Z || (MAX_RUNLEVELS <=? new_runlevel)%Z then
    log_message "ERROR" "Invalid runlevel" st
  else
    let st1 :=
      log_message "INFO"
        (switching_message (current_runlevel st) new_runlevel) st in
    let st2 := set_current_runlevel new_runlevel st1 in
    let st3 := stop_active st2 in
    let st4 := set_process_count 0 st3 in
    init_processes st4.

Definition reload_configuration (st : System) : System :=
  init_processes
    (set_process_count 0 (log_message "INFO" "Reloading configuration..." st)).

(** What happens while the supervisor is in [waitpid (pid, NULL, 0)]: the
    call returns, the SIGCHLD handler having run once for each element of
    [handled] (the children its [waitpid (-1, NULL, WNOHANG)] had to
    report during that run), or the child does not terminate and the call
    never returns.  SIGTERM and SIGHUP are not delivered during the loop. *)
Inductive wait_result :=
  | wait_returns (handled : list (list (Z * Z)))
  | wait_blocks.

(** The kill loop, index by index; [waits i] tells what happens during the
    [waitpid] of the turn at index [i].  None when a [waitpid] does not
    return.  The handler changes neither [process_count] nor the pids, so
    the indices are those below the count at the start. *)
Fixpoint stop_loop (waits : nat -> wait_result) (indices : list nat) (st : System)
  : option System :=
  match indices with
  | [] => Some st
  | i :: rest =>
      match processes st !! i with
      | Some p =>
          if active p then
            let st1 := kill_sigterm [pid p] st in
            match waits i with
            | wait_returns handled =>
                let st2 :=
                  foldl (fun s waited => handle_signal SIGCHLD waited s) st1 handled in
                match processes st2 !! i with
                | Some q =>
                    stop_loop waits rest
                      (set_table (<[i := mark_stopped q]> (processes st2))
                         (process_count st2) st2)
                | None => stop_loop waits rest st2
                end
            | wait_blocks => None
            end
          else stop_loop waits rest st
      | None => stop_loop waits rest st
      end
  end.

Definition stop_active_waiting (waits : nat -> wait_result) (st : System)
  : option System :=
  stop_loop waits (seq 0 (process_count st)) st.

(** [switch_runlevel] with the waits of its kill loop. *)
Definition switch_runlevel_waiting (waits : nat -> wait_result)
    (new_runlevel : Z) (st : System) : option System :=
  if (new_runlevel <? 0)%Z || (MAX_RUNLEVELS <=? new_runlevel)%Z then
    Some (log_message "ERROR" "Invalid runlevel" st)
  else
    let st1 :=
      log_message "INFO"
        (switching_message (current_runlevel st) new_runlevel) st in
    let st2 := set_current_runlevel new_runlevel st1 in
    match stop_active_waiting waits st2 with
    | Some st3 => Some (init_processes (set_process_count 0 st3))
    | None => None
    end.

(** [graceful_shutdown] up to the call of [exit (0)], with the waits of its
    kill loop. *)
Definition graceful_shutdown (waits : nat -> wait_result) (st : System)
  : option System :=
  match stop_active_waiting waits
          (log_message "INFO" "Shutting down init system..." st) with
  | Some st1 =>
      Some (log_message "INFO" "All processes terminated. Exiting init." st1)
  | None => None
  end.

(** ** health_check *)

(** The body of the [for] loop at index [i]. *)
Definition health_check_at (i : nat) (st : System) : System :=
  match processes st !! i with
  | Some p =>
      if active p then st
      else
        snd (start_process_with_retry (command p) (runlevel p) (dependencies p)
               (memory_limit p) (cpu_limit p) 3
               (log_message "INFO" (restarting_message (command p)) st))
  | None => st
  end.

(** [for (i = ...; i < process_count; i++)], the bound read again at every
    turn; None when [fuel] runs out before the loop ends. *)
Fixpoint health_check_loop (fuel : nat) (i : nat) (st : System) : option System :=
  if (process_count st <=? i)%nat then Some st
  else
    match fuel with
    | O => None
    | S fuel' => health_check_loop fuel' (S i) (health_check_at i st)
    end.

(** One turn of the [while (1)] loop: [sleep], then the scan.  The scan never
    looks beyond the larger of [process_count] and MAX_PROCESSES, which is
    the fuel it gets ([health_check_pass_ends] below). *)
Definition health_check_pass (st : System) : option System :=
  let st1 := sleep HEALTH_CHECK_INTERVAL st in
  health_check_loop (process_count st1 `max` MAX_PROCESSES) 0 st1.

(** ** manage_services *)

(** [manage_services] for the arguments [verb] and [service_name], that is,
    when at least these two follow the word manage. *)

Definition manage_services (verb service_name : string) (st : System) : System :=
  if CLib.strcmp_eq verb "start" then
    match list_find (fun p => command p = service_name /\ active p = false) (live st) with
    | Some (_, p) =>
        snd (start_process (command p) (runlevel p) (dependencies p)
               (memory_limit p) (cpu_limit p) st)
    | None => st
    end
  else if CLib.strcmp_eq verb "stop" then
    match list_find (fun p => command p = service_name /\ active p = true) (live st) with
    | Some (i, p) =>
        let st1 := kill_sigterm [pid p] st in
        set_table (<[i := mark_stopped p]> (processes st1)) (process_count st1) st1
    | None => st
    end
  else st. (* "status" and unknown verbs only print *)

(** ** The operations of the supervisor as events *)

Inductive event :=
  | Boot                                    (* init_processes from main *)
  | InittabEntry (runlevel : Z) (command dependencies : string)
                 (memory_limit cpu_limit : Z) (* an accepted inittab line *)
  | ChildExits (waited : list (Z * Z))      (* SIGCHLD *)
  | HealthTick                              (* one pass of health_check *)
  | RunlevelSwitch (n : Z)                  (* switch <n> *)
  | Reload                                  (* SIGHUP *)
  | Manage (verb service_name : string).    (* manage <verb> <name> *)

Definition step (ev : event) (st : System) : System :=
  match ev with
  | Boot => init_processes st
  | InittabEntry r c d m u => init_processes_entry r c d m u st
  | ChildExits waited => handle_signal SIGCHLD waited st
  | HealthTick => default st (health_check_pass st)
  | RunlevelSwitch n => switch_runlevel n st
  | Reload => reload_configuration st
  | Manage verb name => manage_services verb name st
  end.

Definition run (evs : list event) (st : System) : System :=
  foldl (fun s ev => step ev s) st evs.

(** ** Predicates used in the statements *)

(** A line as [fgets] delivers it: no newline, except possibly as its last
    character. *)
Fixpoint newline_only_last (s : string) : bool :=
  match s with
  | EmptyString => true
  | String c s' =>
      if Ascii.eqb c "010" then String.eqb s' "" else newline_only_last s'
  end.

(** A dependency list as the inittab writes it: names that are not empty
    and hold no comma, joined by commas. *)
Fixpoint has_char (d : ascii) (s : string) : bool :=
  match s with
  | EmptyString => false
  | String c s' => Ascii.eqb c d || has_char d s'
  end.

Definition dependency_name (s : string) : bool :=
  negb (String.eqb s "") && negb (has_char "," s).

Definition join_commas (names : list string) : string := String.concat "," names.

(** The table has its MAX_PROCESSES slots. *)
Definition table_ok (st : System) : Prop :=
  length (processes st) = MAX_PROCESSES.

(** Every record below [process_count] carries the current runlevel. *)
Definition runlevel_inv (st : System) : Prop :=
  forall i p, (i < process_count st)%nat -> processes st !! i = Some p ->
    runlevel p = current_runlevel st.

(** What every operation but a valid runlevel switch keeps: the current
    runlevel and the number of slots of the table. *)
Definition frame (st st' : System) : Prop :=
  current_runlevel st' = current_runlevel st
  /\ length (processes st') = length (processes st).

(** The commands recorded below [process_count], in table order. *)
Definition commands (st : System) : list string := map command (live st).

Definition unique_commands (st : System) : Prop := NoDup (commands st).

(** Some record below [process_count] has command [dep] and is running. *)
Definition running (dep : string) (st : System) : Prop :=
  exists p, p ∈ live st /\ command p = dep /\ state p = "running".

(** The record differs from [p] in nothing but [active] and [state], which
    say that it stopped. *)
Definition stopped_version (p q : Process) : Prop :=
  active q = false /\ state q = "stopped" /\
  pid q = pid p /\ command q = command p /\ runlevel q = runlevel p /\
  dependencies q = dependencies p /\ health_pipe q = health_pipe p /\
  memory_limit q = memory_limit p /\ cpu_limit q = cpu_limit p.

(** The texts written to the file [p], in the order of the writes. *)
Definition writes_to (p : string) (ws : list file_write) : list string :=
  map text (filter (fun w => path w = p) ws).

(** The two lines of the inittab example, each ended by a newline. *)
Definition example_inittab : string :=
  "3 /usr/sbin/syslogd - 0 0" ++ String "010"
    ("3 /usr/sbin/sshd syslogd 67108864 20" ++ String "010" "").

(** A kernel in which every [fork] succeeds, with pids 100, 101, ... *)
Definition forks_succeed (n : nat) : fork_result :=
  fork_child (Pos.of_nat (100 + n)).

(** A kernel in which every [fork] fails. *)
Definition forks_fail (n : nat) : fork_result := fork_error.

(** A supervisor that has just started [/bin/a] as pid 100. *)
Definition one_service : System :=
  snd (start_process "/bin/a" 0 "" 0 0 (boot_state None forks_succeed)).

(** A supervisor whose table is full: ten services without dependencies,
    started at runlevel 0. *)
Definition ten_services : list event :=
  map (fun name => InittabEntry 0 name "" 0 0)
    ["/bin/s0"; "/bin/s1"; "/bin/s2"; "/bin/s3"; "/bin/s4";
     "/bin/s5"; "/bin/s6"; "/bin/s7"; "/bin/s8"; "/bin/s9"].

Definition full_table : System :=
  run ten_services (boot_state None forks_succeed).

(** ** log_message on the file system *)

(** [log_message] as it acts on the files: the rotation of LOG_FILE and the
    append of the record.  The file system maps a path to the contents of
    the file there. *)
Module LogFile.

Definition MAX_LOG_SIZE : Z := 1024 * 1024.

(** What the kernel answers during one call: the value of [time (NULL)],
    whether [rename] succeeds, whether [fopen (LOG_FILE, "a")] succeeds. *)
Record kernel := mkKernel {
  now : Z;
  rename_ok : bool;
  fopen_ok : bool
}.

(** [st.st_size] for a file with these contents. *)
Definition st_size (content : string) : Z := Z.of_nat (String.length content).

(** [snprintf (new_log_file, sizeof new_log_file, "%s.%ld", LOG_FILE,
    time (NULL))] when the time is [t].  The file does not declare [time],
    so the call is taken to return an [int]: the low 32 bits of the time
    are what is printed. *)
Definition rotated_name (t : Z) : string :=
  CLib.snprintf 256 (LOG_FILE ++ "." ++ CLib.fmt_d (t mod 2 ^ 32)).

(** The text of [fprintf (log_file, "[%s] %s\n", level, message)]. *)
Definition record_text (level message : string) : string :=
  "[" ++ level ++ "] " ++ message ++ String "010" "".

(** [rename (old, new)] when it succeeds: the file moves, replacing what was
    at the new path. *)
Definition rename (old new : string) (fs : gmap string string) : gmap string string :=
  match fs !! old with
  | Some content => <[new := content]> (delete old fs)
  | None => fs
  end.

(** The rotation step for a size limit [limit]: when [stat] finds LOG_FILE
    with a size of at least the limit, the file is renamed to the name with
    the time. *)
Definition rotate_at (limit : Z) (k : kernel) (fs : gmap string string)
  : gmap string string :=
  match fs !! LOG_FILE with
  | Some content =>
      if (limit <=? st_size content)%Z && rename_ok k
      then rename LOG_FILE (rotated_name (now k)) fs
      else fs
  | None => fs
  end.

(** [fopen (LOG_FILE, "a")], which creates the file when it is missing, and
    the [fprintf] when the file was opened. *)
Definition append_record (k : kernel) (level message : string)
    (fs : gmap string string) : gmap string string :=
  if fopen_ok k
  then <[LOG_FILE := default "" (fs !! LOG_FILE) ++ record_text level message]> fs
  else fs.

Definition log_message_at (limit : Z) (k : kernel) (level message : string)
    (fs : gmap string string) : gmap string string :=
  append_record k level message (rotate_at limit k fs).

(** [log_message], with the limit the program is compiled with. *)
Definition log_message (k : kernel) (level message : string)
    (fs : gmap string string) : gmap string string :=
  log_message_at MAX_LOG_SIZE k level message fs.

End LogFile.

(** ** main *)

(** [strtol (s, NULL, 10)]: the integer at the head of [s], 0 when there is
    none, LONG_MIN or LONG_MAX when it does not fit a [long]. *)
Definition strtol_10 (s : string) : Z :=
  match Scanf.scan_int s with
  | Scanf.Matched z _ => Z.max (- 2 ^ 63) (Z.min z (2 ^ 63 - 1))
  | _ => 0%Z
  end.

(** [atoi]: the result of [strtol], converted to [int]. *)
Definition atoi (s : string) : Z := CLib.wrap_int (strtol_10 s).

(** [manage_services (argc, argv)]: with fewer than three arguments only the
    usage line is printed. *)
Definition manage_services_argv (argv : list string) (st : System) : System :=
  match argv with
  | _ :: verb :: service_name :: _ => manage_services verb service_name st
  | _ => st
  end.

(** [main] in the supervisor, up to the final [while (1)] loop: the start
    line, [init_processes], the [fork] whose child runs [health_check] (the
    parent goes on whatever [fork] returned to it), and the command line.
    None when the kill loop of the runlevel switch does not return. *)
Definition main (waits : nat -> wait_result) (argv : list string) (st : System)
  : option System :=
  let st1 := log_message "INFO" "Starting init..." st in
  let st2 := init_processes st1 in
  let st3 := count_fork st2 in
  match argv with
  | _ :: arg1 :: rest =>
      if CLib.strcmp_eq arg1 "switch" && (length argv =? 3)%nat then
        switch_runlevel_waiting waits (atoi (default "" (rest !! 0%nat))) st3
      else if CLib.strcmp_eq arg1 "manage" then
        Some (manage_services_argv (arg1 :: rest) st3)
      else Some st3
  | _ => Some st3
  end.

(** ** Further predicates *)

(** The lines of the configuration file fit the arrays [init_processes]
    scans them into: none is longer than 255 bytes. *)
Definition file_fits (cfg : option string) : Prop :=
  match cfg with
  | Some content =>
      Forall (fun line => (String.length line <= 255)%nat) (config_lines content)
  | None => True
  end.

Definition config_fits (st : System) : Prop := file_fits (config st).

(** The strings of the records below the process count are terminated
    within their arrays: commands and dependencies are shorter than 256
    bytes. *)
Definition strings_fit (st : System) : Prop :=
  Forall (fun p => (String.length (command p) < 256)%nat
                   /\ (String.length (dependencies p) < 256)%nat) (live st).

(** A [waitpid] that returns, a SIGCHLD handler that runs meanwhile finding
    no child left to report: the [waitpid] of the loop has collected it. *)
Definition quiet_wait (w : wait_result) : Prop :=
  match w with
  | wait_returns handled => Forall (fun waited => waited = []) handled
  | wait_blocks => False
  end.

(** Every [waitpid] of a kill loop over the records of [st] is quiet. *)
Definition waits_quiet (waits : nat -> wait_result) (st : System) : Prop :=
  forall i, (i < process_count st)%nat -> quiet_wait (waits i).

(** The process count is within the table. *)
Definition count_ok (st : System) : Prop :=
  (process_count st <= MAX_PROCESSES)%nat.

(** From [st] to [st'] no record below the process count was touched and
    none was dropped. *)
Definition keeps_records (st st' : System) : Prop :=
  (process_count st <= process_count st')%nat
  /\ take (process_count st) (processes st') = live st.

(** The events the program itself produces: all but an accepted inittab
    line. *)
Definition program_event (ev : event) : bool :=
  match ev with
  | InittabEntry _ _ _ _ _ => false
  | _ => true
  end.

(** The pids of the active records below the process count, in table
    order. *)
Definition active_pids (st : System) : list Z :=
  map pid (filter (fun p => active p = true) (live st)).

(** What the stop loop makes of a record. *)
Definition stopped_if_active (p : Process) : Process :=
  if active p then mark_stopped p else p.

(** From [st] to [st'] nothing happened but that records below the process
    count were marked stopped. *)
Definition stops_only (st st' : System) : Prop :=
  process_count st' = process_count st
  /\ current_runlevel st' = current_runlevel st
  /\ fork_calls st' = fork_calls st
  /\ sigterm_sent st' = sigterm_sent st
  /\ seconds_slept st' = seconds_slept st
  /\ length (processes st') = length (processes st)
  /\ forall i p, processes st !! i = Some p ->
       processes st' !! i = Some p
       \/ ((i < process_count st)%nat /\ processes st' !! i = Some (mark_stopped p)).

(** From [st] to [st'] records were only appended: the records below the
    old process count are untouched, every new record cost one [fork], the
    count stays within the larger of its old value and MAX_PROCESSES, and
    the runlevel, the signals sent and the size of the table are the same. *)
Definition grows (st st' : System) : Prop :=
  keeps_records st st'
  /\ (process_count st' <= process_count st `max` MAX_PROCESSES)%nat
  /\ (fork_calls st <= fork_calls st')%nat
  /\ (process_count st' - process_count st <= fork_calls st' - fork_calls st)%nat
  /\ current_runlevel st' = current_runlevel st
  /\ sigterm_sent st' = sigterm_sent st
  /\ length (processes st') = length (processes st).

(** The number of inactive records in a list. *)
Definition inactive_count (l : list Process) : nat :=
  length (filter (fun p => active p = false) l).

(** Two services, [/bin/a] running as pid 100 and [/bin/b], which depends on
    it, running as pid 101. *)
Definition two_services : System :=
  run [InittabEntry 0 "/bin/a" "" 0 0; InittabEntry 0 "/bin/b" "/bin/a" 0 0]
    (boot_state None forks_succeed).

(** ** The model on small inputs *)

Example strtok_two : CLib.strtok_all "," "a,,b," = ["a"; "b"].
Proof. reflexivity. Qed.

Example fmt_d_neg : CLib.fmt_d (-42) = "-42".
Proof. reflexivity. Qed.

Example sscanf_sshd :
  Scanf.sscanf Scanf.inittab_format
    ("3 /usr/sbin/sshd syslogd 67108864 20" ++ String "010" "") []
  = (2%Z, [Scanf.Iint 3; Scanf.Istr "/usr/sbin/sshd syslogd 67108864 20"]).
Proof. vm_compute. reflexivity. Qed.

Example dependency_on_running_service :
  check_all_dependencies_active "/bin/a" one_service = true
  /\ check_all_dependencies_active "/bin/a,/bin/b" one_service = false
  /\ check_all_dependencies_active "/bin/a"
       (handle_signal SIGCHLD [(100%Z, 0%Z)] one_service) = false.
Proof. by vm_compute. Qed.

Example full_table_is_full :
  process_count full_table = MAX_PROCESSES /\ table_ok full_table
  /\ fork_calls full_table = 10%nat.
Proof. by vm_compute. Qed.

Example switch_to_valid_runlevel :
  let st := switch_runlevel 3 one_service in
  current_runlevel st = 3%Z /\ process_count st = 0%nat
  /\ sigterm_sent st = [100%Z]
  /\ map fst (log_lines st) = ["INFO"; "INFO"; "ERROR"].
Proof. by vm_compute. Qed.

(** ** The inittab reader *)

Section InittabReader.

Import Scanf.

Lemma newline_only_last_tail c s :
  newline_only_last (String c s) = true -> newline_only_last s = true.
Proof.
  simpl. destruct (Ascii.eqb c "010"); [|done].
  intros H. apply String.eqb_eq in H. by subst.
Qed.

Lemma newline_only_last_skip_space s :
  newline_only_last s = true -> newline_only_last (skip_space s) = true.
Proof.
  induction s as [|c s IH]; [done|].
  intros H. cbn [skip_space]. destruct (isspace c); [|done].
  apply IH. by eapply newline_only_last_tail.
Qed.

Lemma newline_only_last_scan_digits s acc :
  newline_only_last s = true -> newline_only_last (snd (scan_digits acc s)) = true.
Proof.
  revert acc. induction s as [|c s IH]; intros acc H; [done|].
  cbn [scan_digits]. destruct (isdigit c); [|done].
  apply IH. by eapply newline_only_last_tail.
Qed.

Lemma newline_only_last_scan_int s z rest :
  scan_int s = Matched z rest ->
  newline_only_last s = true -> newline_only_last rest = true.
Proof.
  unfold scan_int. intros Hscan Hs.
  apply newline_only_last_skip_space in Hs.
  destruct (skip_space s) as [|c r]; [done|].
  assert (Hr : newline_only_last r = true) by by eapply newline_only_last_tail.
  destruct (Ascii.eqb c "-"); [|destruct (Ascii.eqb c "+")].
  - destruct r as [|d r']; [done|]. destruct (isdigit d); [|done].
    pose proof (newline_only_last_scan_digits (String d r') 0 Hr) as Hd.
    destruct (scan_digits 0 (String d r')) as [v rest']. by simplify_eq.
  - destruct r as [|d r']; [done|]. destruct (isdigit d); [|done].
    pose proof (newline_only_last_scan_digits (String d r') 0 Hr) as Hd.
    destruct (scan_digits 0 (String d r')) as [v rest']. by simplify_eq.
  - destruct (isdigit c); [|done].
    pose proof (newline_only_last_scan_digits (String c r) 0 Hs) as Hd.
    destruct (scan_digits 0 (String c r)) as [v rest']. by simplify_eq.
Qed.

(** After [%[^\n]] a line of [fgets] has nothing left but its newline. *)
Lemma take_notnl_rest s t r :
  take_notnl s = (t, r) -> newline_only_last s = true ->
  r = "" \/ r = String "010" "".
Proof.
  revert t r. induction s as [|c s IH]; intros t r Ht Hs.
  - left. simpl in Ht. by simplify_eq.
  - simpl in Ht, Hs. destruct (Ascii.eqb c "010") eqn:Hc.
    + apply Ascii.eqb_eq in Hc. apply String.eqb_eq in Hs. subst.
      right. by simplify_eq.
    + destruct (take_notnl s) as [t' r'] eqn:Hts. simplify_eq. by eapply IH.
Qed.

Lemma scan_notnl_rest s t r :
  scan_notnl s = Matched t r -> newline_only_last s = true -> skip_space r = "".
Proof.
  unfold scan_notnl. destruct s as [|c s]; [done|].
  destruct (Ascii.eqb c "010"); [done|].
  destruct (take_notnl (String c s)) as [t' r'] eqn:Ht. intros ? Hs. simplify_eq.
  by destruct (take_notnl_rest _ _ _ Ht Hs) as [-> | ->].
Qed.

(** On a line of [fgets] the second [%[^\n]] never finds input: at most
    two of the five conversions are assigned. *)
Lemma sscanf_inittab_line line :
  newline_only_last line = true ->
  let r := sscanf inittab_format line [] in
  r = (EOF, []) \/ r = (0%Z, []) \/ (exists z, r = (1%Z, [Iint z]))
  \/ (exists z t, r = (2%Z, [Iint z; Istr t])).
Proof.
  intros Hl. unfold inittab_format. cbn [sscanf].
  destruct (scan_int line) as [z r1| |] eqn:Hint; [|by left|by right; left].
  pose proof (newline_only_last_scan_int _ _ _ Hint Hl) as Hr1.
  apply newline_only_last_skip_space in Hr1.
  destruct (scan_notnl (skip_space r1)) as [t r2| |] eqn:Hcmd;
    [|right; right; left; by exists z..].
  rewrite (scan_notnl_rest _ _ _ Hcmd Hr1). cbn.
  right; right; right. by exists z, t.
Qed.

Lemma sscanf_inittab_never_5 line :
  newline_only_last line = true -> fst (sscanf inittab_format line []) <> 5%Z.
Proof.
  intros Hl. destruct (sscanf_inittab_line line Hl) as [H|[H|[[z H]|[z [t H]]]]];
    cbv zeta in H; by rewrite H.
Qed.

Lemma init_processes_line_skips line st :
  newline_only_last line = true -> init_processes_line line st = st.
Proof.
  intros Hl. unfold init_processes_line.
  destruct (sscanf_inittab_line line Hl) as [H|[H|[[z H]|[z [t H]]]]];
    cbv zeta in H; by rewrite H.
Qed.

Lemma fgets_take_line room s :
  newline_only_last (fst (CLib.fgets_take room s)) = true.
Proof.
  revert s. induction room as [|room IH]; intros s; [done|].
  destruct s as [|c s]; [done|]. cbn [CLib.fgets_take].
  destruct (Ascii.eqb c "010") eqn:Hc; [by simpl; rewrite Hc|].
  specialize (IH s). destruct (CLib.fgets_take room s) as [l r].
  simpl in *. by rewrite Hc.
Qed.

Lemma fgets_take_split room s :
  let '(l, r) := CLib.fgets_take room s in (l ++ r)%string = s.
Proof.
  revert s. induction room as [|room IH]; intros s; [done|].
  destruct s as [|c s]; [done|]. cbn [CLib.fgets_take].
  destruct (Ascii.eqb c "010"); [done|].
  specialize (IH s). destruct (CLib.fgets_take room s) as [l r].
  by rewrite <- IH.
Qed.

Lemma fgets_take_rest room s :
  (String.length (snd (CLib.fgets_take room s)) <= String.length s)%nat.
Proof.
  revert s. induction room as [|room IH]; intros s; [done|].
  destruct s as [|c s]; [done|]. cbn [CLib.fgets_take].
  destruct (Ascii.eqb c "010"); [simpl; lia|].
  specialize (IH s). destruct (CLib.fgets_take room s) as [l r].
  simpl in *. lia.
Qed.

Lemma fgets_take_progress room c s :
  (String.length (snd (CLib.fgets_take (S room) (String c s))) <= String.length s)%nat.
Proof.
  cbn [CLib.fgets_take]. destruct (Ascii.eqb c "010"); [done|].
  pose proof (fgets_take_rest room s) as H.
  by destruct (CLib.fgets_take room s) as [l r].
Qed.

Lemma fgets_lines_are_lines fuel s :
  Forall (fun line => newline_only_last line = true) (fgets_lines fuel s).
Proof.
  revert s. induction fuel as [|fuel IH]; intros s; [by constructor|].
  cbn [fgets_lines]. destruct s as [|c s]; [by constructor|].
  unfold CLib.fgets.
  pose proof (fgets_take_line (512 - 1) (String c s)) as Hl.
  destruct (CLib.fgets_take (512 - 1) (String c s)) as [l r].
  constructor; [done|apply IH].
Qed.

(** The loop reads the whole file: the lines, put together, are its
    contents. *)
Lemma fgets_lines_whole_file content :
  foldr String.append "" (config_lines content) = content.
Proof.
  unfold config_lines.
  assert (H : forall fuel s, (String.length s <= fuel)%nat ->
            foldr String.append "" (fgets_lines fuel s) = s).
  { induction fuel as [|fuel IH]; intros s Hs.
    - destruct s; [done|simpl in Hs; lia].
    - destruct s as [|c s]; [done|]. cbn [fgets_lines CLib.fgets].
      pose proof (fgets_take_split (512 - 1) (String c s)) as Hsplit.
      pose proof (fgets_take_progress 510 c s) as Hlen.
      change (512 - 1)%nat with 511%nat in *.
      destruct (CLib.fgets_take 511 (String c s)) as [l r].
      cbn [foldr]. rewrite IH; [done|]. simpl in Hs, Hlen. lia. }
  by apply H.
Qed.

(** No line of the file is accepted, so [init_processes] starts nothing. *)
Lemma init_processes_starts_nothing st content :
  config st = Some content -> init_processes st = st.
Proof.
  intros Hc. unfold init_processes. rewrite Hc.
  pose proof (fgets_lines_are_lines (String.length content) content) as Hl.
  unfold config_lines. induction Hl as [|line lines Hline _ IH]; [done|].
  cbn [foldl]. by rewrite init_processes_line_skips.
Qed.

End InittabReader.

(** C1.  The inittab line of the specification's example,
    [3 /usr/sbin/sshd syslogd 67108864 20], is not turned into a
    declaration: [sscanf] assigns the runlevel and takes the rest of the
    line as the command, returns 2, and [init_processes] at runlevel 3
    leaves the system as it found it (no process started, no fork). *)
Theorem inittab_example_line_is_skipped :
  let line := "3 /usr/sbin/sshd syslogd 67108864 20" ++ String "010" "" in
  let st := set_current_runlevel 3 (boot_state (Some example_inittab) forks_succeed) in
  Scanf.sscanf Scanf.inittab_format line []
    = (2%Z, [Scanf.Iint 3; Scanf.Istr "/usr/sbin/sshd syslogd 67108864 20"])
  /\ config_lines example_inittab
     = ["3 /usr/sbin/syslogd - 0 0" ++ String "010" ""; line]
  /\ init_processes_line line st = st
  /\ process_count (init_processes st) = 0%nat
  /\ fork_calls (init_processes st) = 0%nat
  /\ init_processes st = st.
Proof.
  cbv zeta. split; [by vm_compute|]. split; [by vm_compute|].
  split; [by apply init_processes_line_skips|].
  by rewrite (init_processes_starts_nothing _ example_inittab).
Qed.

(** ** The dependency check *)

Lemma dependency_running_spec dep st :
  dependency_running dep st = true <-> running dep st.
Proof.
  unfold dependency_running, running. rewrite existsb_exists. split.
  - intros (p & Hin & Hp). apply andb_prop in Hp as [Hc Hs].
    apply String.eqb_eq in Hc, Hs. exists p. by rewrite list_elem_of_In.
  - intros (p & Hin & Hc & Hs). exists p. rewrite <- list_elem_of_In.
    split; [done|]. unfold CLib.strcmp_eq. rewrite Hc, Hs.
    by rewrite !String.eqb_refl.
Qed.

Lemma all_dependencies_found_spec deps st :
  all_dependencies_found deps st = true <-> Forall (fun dep => running dep st) deps.
Proof.
  induction deps as [|dep deps IH]; [by split; [constructor|]|].
  cbn [all_dependencies_found]. rewrite Forall_cons, <- IH, <- dependency_running_spec.
  destruct (dependency_running dep st); [tauto|]. split; [done|]. by intros [? _].
Qed.

(** The tokens [strtok] returns are not empty and hold no delimiter. *)
Lemma strtok_from_tokens delim cur s tok :
  tok ∈ CLib.strtok_from delim cur s ->
  (forall c, In c (list_ascii_of_string cur) -> c <> delim) ->
  tok <> "" /\ forall c, In c (list_ascii_of_string tok) -> c <> delim.
Proof.
  revert cur. induction s as [|c s IH]; intros cur Hin Hcur.
  - cbn [CLib.strtok_from] in Hin. destruct (String.eqb cur "") eqn:He.
    { by apply elem_of_nil in Hin. }
    apply list_elem_of_singleton in Hin as ->. split; [|done].
    intros ->. by rewrite String.eqb_refl in He.
  - cbn [CLib.strtok_from] in Hin. destruct (Ascii.eqb c delim) eqn:Hc.
    + destruct (String.eqb cur "") eqn:He.
      { apply (IH ""); [done|]. by intros ? []. }
      apply elem_of_cons in Hin as [->|Hin].
      * split; [|done]. intros ->. by rewrite String.eqb_refl in He.
      * apply (IH ""); [done|]. by intros ? [].
    + apply (IH _ Hin). intros c' Hc'.
      assert (Happ : list_ascii_of_string (cur ++ String c "")
                     = (list_ascii_of_string cur ++ [c])%list).
      { clear. induction cur as [|a cur IHc]; [done|].
        change (a :: list_ascii_of_string (cur ++ String c "")
                = a :: (list_ascii_of_string cur ++ [c])%list). by rewrite IHc. }
      rewrite Happ in Hc'. apply in_app_or in Hc' as [Hc'|[<-|[]]]; [by apply Hcur|].
      intros ->. by rewrite Ascii.eqb_refl in Hc.
Qed.

Lemma string_app_cons c s t : (String c s ++ t) = String c (s ++ t).
Proof. reflexivity. Qed.

Lemma string_app_nil_r s : (s ++ "") = s.
Proof. induction s as [|c s IH]; [done|]. by rewrite string_app_cons, IH. Qed.

Lemma string_app_assoc s t u : ((s ++ t) ++ u) = (s ++ t ++ u).
Proof. induction s as [|c s IH]; [done|]. by rewrite !string_app_cons, IH. Qed.

(** Reading a run without delimiter extends the token being read. *)
Lemma strtok_from_run delim cur a rest :
  has_char delim a = false ->
  CLib.strtok_from delim cur (a ++ rest) = CLib.strtok_from delim (cur ++ a) rest.
Proof.
  revert cur. induction a as [|c a IH]; intros cur Ha.
  - by rewrite string_app_nil_r.
  - cbn [has_char] in Ha. apply orb_false_elim in Ha as [Hc Ha].
    rewrite string_app_cons. cbn [CLib.strtok_from]. rewrite Hc.
    rewrite IH by done. by rewrite string_app_assoc.
Qed.

(** [strtok] gives back the names of a comma-joined list. *)
Lemma strtok_all_join names :
  Forall (fun name => dependency_name name = true) names ->
  CLib.strtok_all "," (join_commas names) = names.
Proof.
  unfold CLib.strtok_all, join_commas.
  induction 1 as [|name names Hname Hnames IH]; [done|].
  apply andb_prop in Hname as [Hne Hfree].
  apply negb_true_iff in Hne, Hfree.
  destruct names as [|name' names].
  - cbn [String.concat]. rewrite <- (string_app_nil_r name) at 1.
    rewrite strtok_from_run by done. cbn [CLib.strtok_from].
    change ("" ++ name) with name. by rewrite Hne.
  - change (String.concat "," (name :: name' :: names))
      with (name ++ String "," (String.concat "," (name' :: names))).
    rewrite strtok_from_run by done. cbn [CLib.strtok_from].
    change ("" ++ name) with name. rewrite Ascii.eqb_refl, Hne. by rewrite IH.
Qed.

(** ** Frame properties of the primitive steps *)

Lemma live_log_message level message st :
  live (log_message level message st) = live st.
Proof. done. Qed.

Lemma live_sleep n st : live (sleep n st) = live st.
Proof. done. Qed.

(** The check reads nothing but the records below [process_count]. *)
Lemma check_depends_on_live deps st1 st2 :
  live st1 = live st2 ->
  check_all_dependencies_active deps st1 = check_all_dependencies_active deps st2.
Proof.
  intros Hlive. unfold check_all_dependencies_active.
  induction (CLib.strtok_all "," deps) as [|dep more IH]; [done|].
  cbn [all_dependencies_found]. unfold dependency_running.
  by rewrite Hlive, IH.
Qed.

Lemma check_log_message deps level message st :
  check_all_dependencies_active deps (log_message level message st)
  = check_all_dependencies_active deps st.
Proof. by apply check_depends_on_live. Qed.

Lemma check_sleep deps n st :
  check_all_dependencies_active deps (sleep n st)
  = check_all_dependencies_active deps st.
Proof. by apply check_depends_on_live. Qed.

(** ** start_process, path by path *)

Lemma start_process_cases command runlevel dependencies memory_limit cpu_limit st :
  let r := start_process command runlevel dependencies memory_limit cpu_limit st in
  ((MAX_PROCESSES <= process_count st)%nat /\
   r = (CapacityExceeded, log_message "ERROR" "Max processes reached" st))
  \/ ((process_count st < MAX_PROCESSES)%nat /\
      check_all_dependencies_active dependencies st = false /\
      r = (DependenciesUnmet, log_message "WARNING" (unmet_message command) st))
  \/ ((process_count st < MAX_PROCESSES)%nat /\
      check_all_dependencies_active dependencies st = true /\
      fork_oracle st (fork_calls st) = fork_error /\
      r = (ForkFailed, log_message "ERROR" "Failed to fork process" (count_fork st)))
  \/ (exists child,
      (process_count st < MAX_PROCESSES)%nat /\
      check_all_dependencies_active dependencies st = true /\
      fork_oracle st (fork_calls st) = fork_child child /\
      r = (Started (Z.pos child),
           log_message "INFO" (started_message command (Z.pos child) runlevel)
             (set_table
                (<[process_count st :=
                     new_process (Z.pos child) command runlevel dependencies
                       memory_limit cpu_limit]> (processes st))
                (S (process_count st)) (count_fork st)))).
Proof.
  cbv zeta. unfold start_process.
  destruct (MAX_PROCESSES <=? process_count st)%nat eqn:Hcap.
  { left. apply Nat.leb_le in Hcap. done. }
  apply Nat.leb_gt in Hcap. right.
  destruct (check_all_dependencies_active dependencies st) eqn:Hdeps; cbn [negb].
  2: { left. done. }
  right. destruct (fork_oracle st (fork_calls st)) as [|child] eqn:Hfork.
  { left. done. }
  right. exists child. done.
Qed.

(** C9.  [start_process] commits a record on the success path only: when it
    leaves by one of its three failure returns (table full, dependencies not
    satisfied, fork failed) the table and the process count are what they
    were before the call; when it succeeds, the new record is written into
    slot [process_count] and the count grows by one.  The failure returns
    are taken exactly under their conditions. *)
Theorem start_process_atomic_on_failure
    (command : string) (runlevel : Z) (dependencies : string)
    (memory_limit cpu_limit : Z) (st : System) :
  let r := start_process command runlevel dependencies memory_limit cpu_limit st in
  match fst r with
  | Started child =>
      (process_count st < MAX_PROCESSES)%nat
      /\ check_all_dependencies_active dependencies st = true
      /\ (exists c, fork_oracle st (fork_calls st) = fork_child c /\ child = Z.pos c)
      /\ process_count (snd r) = S (process_count st)
      /\ processes (snd r)
         = <[process_count st :=
               new_process child command runlevel dependencies
                 memory_limit cpu_limit]> (processes st)
  | CapacityExceeded =>
      (MAX_PROCESSES <= process_count st)%nat
      /\ processes (snd r) = processes st
      /\ process_count (snd r) = process_count st
  | DependenciesUnmet =>
      check_all_dependencies_active dependencies st = false
      /\ processes (snd r) = processes st
      /\ process_count (snd r) = process_count st
  | ForkFailed =>
      fork_oracle st (fork_calls st) = fork_error
      /\ processes (snd r) = processes st
      /\ process_count (snd r) = process_count st
  end.
Proof.
  cbv zeta.
  destruct (start_process_cases command runlevel dependencies memory_limit
              cpu_limit st)
    as [(Hcap & ->)|[(Hcap & Hdeps & ->)|[(Hcap & Hdeps & Hfork & ->)
        |(child & Hcap & Hdeps & Hfork & ->)]]]; cbn [fst snd].
  - done.
  - done.
  - done.
  - repeat split; try done. by exists child.
Qed.

(** C3 (as amended).  When the dependencies of a declaration are not all
    satisfied, [start_process] does not fork and leaves the table and the
    process count as they were.  It leaves by the dependency return, logging
    the WARNING line, when the table still has room; when the table is full
    the capacity check, which comes first, makes it leave by the capacity
    return with the ERROR line. *)
Theorem unmet_dependencies_never_fork
    (command : string) (runlevel : Z) (dependencies : string)
    (memory_limit cpu_limit : Z) (st : System) :
  check_all_dependencies_active dependencies st = false ->
  let r := start_process command runlevel dependencies memory_limit cpu_limit st in
  processes (snd r) = processes st
  /\ process_count (snd r) = process_count st
  /\ fork_calls (snd r) = fork_calls st
  /\ ((process_count st < MAX_PROCESSES)%nat ->
      fst r = DependenciesUnmet
      /\ log_lines (snd r) = (log_lines st ++ [("WARNING", unmet_message command)])%list)
  /\ ((MAX_PROCESSES <= process_count st)%nat ->
      fst r = CapacityExceeded
      /\ log_lines (snd r) = (log_lines st ++ [("ERROR", "Max processes reached")])%list).
Proof.
  intros Hunmet. cbv zeta.
  destruct (start_process_cases command runlevel dependencies memory_limit
              cpu_limit st)
    as [(Hcap & ->)|[(Hcap & Hdeps & ->)|[(Hcap & Hdeps & Hfork & ->)
        |(child & Hcap & Hdeps & Hfork & ->)]]]; cbn [fst snd]; try congruence.
  - split_and!; [done..| |done]. intros; lia.
  - split_and!; [done..|done|]. intros; lia.
Qed.

(** The sshd line of the example, before syslogd runs. *)
Lemma unmet_dependencies_never_fork_witness :
  let st := boot_state None forks_succeed in
  let r := start_process "/usr/sbin/sshd" 3 "syslogd" 67108864 20 st in
  processes (snd r) = processes st
  /\ process_count (snd r) = process_count st
  /\ fork_calls (snd r) = fork_calls st
  /\ ((process_count st < MAX_PROCESSES)%nat ->
      fst r = DependenciesUnmet
      /\ log_lines (snd r)
         = (log_lines st ++ [("WARNING", unmet_message "/usr/sbin/sshd")])%list)
  /\ ((MAX_PROCESSES <= process_count st)%nat ->
      fst r = CapacityExceeded
      /\ log_lines (snd r) = (log_lines st ++ [("ERROR", "Max processes reached")])%list).
Proof.
  apply (unmet_dependencies_never_fork "/usr/sbin/sshd" 3 "syslogd" 67108864 20
           (boot_state None forks_succeed)).
  reflexivity.
Defined.

(** C3, the claim as stated fails: with a full table and an unmet dependency
    [start_process] leaves by the capacity return, not the dependency one. *)
Lemma unmet_dependencies_full_table :
  process_count full_table = MAX_PROCESSES
  /\ check_all_dependencies_active "syslogd" full_table = false
  /\ fst (start_process "/usr/sbin/sshd" 0 "syslogd" 67108864 20 full_table)
     = CapacityExceeded
  /\ fst (start_process "/usr/sbin/sshd" 0 "syslogd" 67108864 20 full_table)
     <> DependenciesUnmet
  /\ last (log_lines
             (snd (start_process "/usr/sbin/sshd" 0 "syslogd" 67108864 20 full_table)))
     = Some ("ERROR", "Max processes reached").
Proof. by vm_compute. Qed.

(** C2 (as amended).  The resolver returns true exactly when every token of
    the dependency string (the non-empty pieces between commas) is the
    command of a record below [process_count] whose state is "running"; for
    a list of names joined by commas these tokens are the names.
    The empty string has no token and is accepted in every registry state;
    ["-"] is a token like any other, so it is accepted only when a running
    record has the command ["-"]. *)
Theorem dependency_check_spec :
  (forall deps st,
     check_all_dependencies_active deps st = true
     <-> Forall (fun dep => running dep st) (CLib.strtok_all "," deps))
  /\ (forall names st,
        Forall (fun name => dependency_name name = true) names ->
        check_all_dependencies_active (join_commas names) st = true
        <-> Forall (fun name => running name st) names)
  /\ (forall st, check_all_dependencies_active "" st = true)
  /\ CLib.strtok_all "," "-" = ["-"]
  /\ (forall st, check_all_dependencies_active "-" st = true <-> running "-" st).
Proof.
  split_and!.
  - intros deps st. apply all_dependencies_found_spec.
  - intros names st Hnames. unfold check_all_dependencies_active.
    rewrite strtok_all_join by done. apply all_dependencies_found_spec.
  - done.
  - done.
  - intros st. unfold check_all_dependencies_active.
    change (CLib.strtok_all "," "-") with ["-"].
    rewrite all_dependencies_found_spec, Forall_singleton. done.
Qed.

(** C2, the claim as stated fails: in the registry of a supervisor that has
    started nothing, the dependency field ["-"] is not satisfied. *)
Lemma dash_is_an_unmet_dependency :
  check_all_dependencies_active "-" (boot_state None forks_fail) = false.
Proof. reflexivity. Qed.

(** ** The retry wrapper *)

(** Past a successful dependency check the wrapper calls [start_process]
    once and returns true, whatever [start_process] did. *)
Lemma retry_loop_satisfied attempts command runlevel dependencies
    memory_limit cpu_limit st :
  check_all_dependencies_active dependencies st = true ->
  retry_loop (S attempts) command runlevel dependencies memory_limit cpu_limit st
  = (true, snd (start_process command runlevel dependencies
                  memory_limit cpu_limit st)).
Proof. intros H. cbn [retry_loop]. by rewrite H. Qed.

(** While the dependencies stay unmet the wrapper sleeps one second per
    attempt, never calls [start_process], and ends with the ERROR line and
    false. *)
Lemma retry_loop_unmet attempts command runlevel dependencies
    memory_limit cpu_limit st :
  check_all_dependencies_active dependencies st = false ->
  let r := retry_loop attempts command runlevel dependencies
             memory_limit cpu_limit st in
  fst r = false
  /\ processes (snd r) = processes st
  /\ process_count (snd r) = process_count st
  /\ current_runlevel (snd r) = current_runlevel st
  /\ fork_calls (snd r) = fork_calls st
  /\ seconds_slept (snd r) = (seconds_slept st + attempts)%nat
  /\ log_lines (snd r)
     = (log_lines st ++ [("ERROR", "Failed to start process after retries")])%list.
Proof.
  cbv zeta. revert st. induction attempts as [|attempts IH]; intros st Hunmet.
  - cbn. split_and!; try done; lia.
  - cbn [retry_loop]. rewrite Hunmet.
    destruct (IH (sleep 1 st)) as (H1 & H2 & H3 & H4 & H5 & H6 & H7).
    { by rewrite check_sleep. }
    split_and!; try done. rewrite H6. cbn [sleep seconds_slept]. lia.
Qed.

(** C4.  With no dependencies and a kernel that refuses to fork, the retry
    wrapper returns true although [start_process] left by its fork-failure
    return and recorded no process: the wrapper's result does not tell
    whether the process was started. *)
Theorem retry_reports_success_without_start :
  let st := boot_state None forks_fail in
  let r := start_process_with_retry "/bin/a" 0 "" 0 0 3 st in
  fst (start_process "/bin/a" 0 "" 0 0 st) = ForkFailed
  /\ fst r = true
  /\ process_count (snd r) = 0%nat
  /\ processes (snd r) = processes st
  /\ log_lines (snd r) = [("ERROR", "Failed to fork process")].
Proof. by vm_compute. Qed.

(** ** The resource caps *)

Lemma wrap_int_small z :
  (- 2 ^ 31 <= z < 2 ^ 31)%Z -> CLib.wrap_int z = z.
Proof. intros H. unfold CLib.wrap_int. rewrite Z.mod_small; lia. Qed.

(** C5 (as amended).  [set_resource_limits] writes the memory-limit file
    whenever it can be opened, with the decimal memory limit, and the CPU
    quota file whenever it can be opened, with [cpu_limit * 10000] (as an
    [int]; the product itself for every percentage whose product fits an
    [int], in particular for 0 to 100).  Neither write looks at the sign of
    the value: a limit of 0 is written as 0. *)
Theorem resource_limits_written_unconditionally
    (fopen_ok : string -> bool) (self memory_limit cpu_limit : Z) :
  let ws := set_resource_limits fopen_ok self memory_limit cpu_limit in
  writes_to MEMORY_LIMIT_FILE ws
    = (if fopen_ok MEMORY_LIMIT_FILE then [CLib.fmt_d memory_limit] else [])
  /\ writes_to CPU_QUOTA_FILE ws
     = (if fopen_ok CPU_QUOTA_FILE
        then [CLib.fmt_d (CLib.wrap_int (cpu_limit * 10000))] else [])
  /\ ((-214748 <= cpu_limit <= 214748)%Z ->
      CLib.wrap_int (cpu_limit * 10000) = (cpu_limit * 10000)%Z).
Proof.
  cbv zeta. split_and!.
  - unfold set_resource_limits, write_if_open, writes_to.
    destruct (fopen_ok MEMORY_LIMIT_FILE), (fopen_ok CPU_QUOTA_FILE),
      (fopen_ok CGROUP_PROCS_FILE); reflexivity.
  - unfold set_resource_limits, write_if_open, writes_to.
    destruct (fopen_ok MEMORY_LIMIT_FILE), (fopen_ok CPU_QUOTA_FILE),
      (fopen_ok CGROUP_PROCS_FILE); reflexivity.
  - intros H. apply wrap_int_small. lia.
Qed.

(** C5, the claim as stated fails: with both limits 0 the memory-limit file
    and the CPU quota file are both written, each with the text 0. *)
Lemma zero_limits_are_written :
  set_resource_limits (fun _ => true) 1234 0 0
  = [mkWrite MEMORY_LIMIT_FILE "w" "0"; mkWrite CPU_QUOTA_FILE "w" "0";
     mkWrite CGROUP_PROCS_FILE "a" "1234"].
Proof. reflexivity. Qed.

(** ** The runlevel switch *)

(** C7 (as amended).  A runlevel-switch request for a number below 0 or not
    below MAX_RUNLEVELS is ignored: the only thing it does is to log the
    line "Invalid runlevel", at level ERROR.  The current runlevel, the
    table and the process count keep their values, nothing is forked and no
    process is signalled. *)
Theorem switch_runlevel_invalid (n : Z) (st : System) :
  (n < 0 \/ MAX_RUNLEVELS <= n)%Z ->
  switch_runlevel n st = log_message "ERROR" "Invalid runlevel" st
  /\ current_runlevel (switch_runlevel n st) = current_runlevel st
  /\ processes (switch_runlevel n st) = processes st
  /\ process_count (switch_runlevel n st) = process_count st
  /\ fork_calls (switch_runlevel n st) = fork_calls st
  /\ sigterm_sent (switch_runlevel n st) = sigterm_sent st
  /\ log_lines (switch_runlevel n st)
     = (log_lines st ++ [("ERROR", "Invalid runlevel")])%list.
Proof.
  intros Hn.
  assert (H : switch_runlevel n st = log_message "ERROR" "Invalid runlevel" st).
  { unfold switch_runlevel.
    destruct (n <? 0)%Z eqn:Hlo; [done|].
    destruct (MAX_RUNLEVELS <=? n)%Z eqn:Hhi; [done|].
    apply Z.ltb_ge in Hlo. apply Z.leb_gt in Hhi. lia. }
  by rewrite H.
Qed.

(** A request for runlevel 7 while [/bin/a] runs. *)
Lemma switch_runlevel_invalid_witness :
  switch_runlevel 7 one_service = log_message "ERROR" "Invalid runlevel" one_service
  /\ current_runlevel (switch_runlevel 7 one_service) = current_runlevel one_service
  /\ processes (switch_runlevel 7 one_service) = processes one_service
  /\ process_count (switch_runlevel 7 one_service) = process_count one_service
  /\ fork_calls (switch_runlevel 7 one_service) = fork_calls one_service
  /\ sigterm_sent (switch_runlevel 7 one_service) = sigterm_sent one_service
  /\ log_lines (switch_runlevel 7 one_service)
     = (log_lines one_service ++ [("ERROR", "Invalid runlevel")])%list.
Proof.
  apply (switch_runlevel_invalid 7 one_service). right. unfold MAX_RUNLEVELS. lia.
Defined.

(** C7, the claim as stated fails: the line logged for the invalid runlevel 7
    has level ERROR; no line of level WARN or WARNING is logged. *)
Lemma invalid_runlevel_is_logged_as_error :
  map fst (log_lines (switch_runlevel 7 (boot_state None forks_succeed))) = ["ERROR"]
  /\ log_lines (switch_runlevel 7 (boot_state None forks_succeed))
     <> [("WARN", "Invalid runlevel")]
  /\ log_lines (switch_runlevel 7 (boot_state None forks_succeed))
     <> [("WARNING", "Invalid runlevel")].
Proof. by vm_compute. Qed.

(** ** The SIGCHLD handler *)

Lemma handle_signal_one child status st :
  (0 < child)%Z -> handle_signal SIGCHLD [(child, status)] st = reap_child child st.
Proof.
  intros Hpos. unfold handle_signal. cbn.
  destruct (child <=? 0)%Z eqn:H; [|done]. apply Z.leb_le in H. lia.
Qed.

Lemma mark_stopped_is_stopped_version p : stopped_version p (mark_stopped p).
Proof. by repeat split. Qed.

(** C8 (as amended).  For a child-exit event with a positive pid: if no
    record below [process_count] holds the pid, the event changes nothing;
    otherwise the first record that holds it is marked inactive with state
    "stopped", its other fields and all other records stay as they are, and
    one INFO line is logged.  The exit status is not looked at: the result
    is the same for every status. *)
Theorem child_exit_marks_first_holder (child status : Z) (st : System) :
  (0 < child)%Z ->
  let st' := handle_signal SIGCHLD [(child, status)] st in
  ((forall p, p ∈ live st -> pid p <> child) -> st' = st)
  /\ (forall i p,
        (i < process_count st)%nat -> processes st !! i = Some p -> pid p = child ->
        (forall j q, (j < i)%nat -> processes st !! j = Some q -> pid q <> child) ->
        processes st' = <[i := mark_stopped p]> (processes st)
        /\ stopped_version p (mark_stopped p)
        /\ process_count st' = process_count st
        /\ current_runlevel st' = current_runlevel st
        /\ fork_calls st' = fork_calls st
        /\ log_lines st'
           = (log_lines st ++ [("INFO", finished_message (command p) child)])%list)
  /\ (forall status', handle_signal SIGCHLD [(child, status')] st = st').
Proof.
  intros Hpos. cbv zeta. rewrite handle_signal_one by done. split_and!.
  - intros Hnone. unfold reap_child.
    assert (Hfind : list_find (fun p => pid p = child) (live st) = None).
    { apply list_find_None, Forall_forall. intros p Hp. by apply Hnone. }
    by rewrite Hfind.
  - intros i p Hi Hp Hpid Hfirst. unfold reap_child.
    assert (Hfind : list_find (fun p => pid p = child) (live st) = Some (i, p)).
    { apply list_find_Some. split_and!.
      - unfold live. by rewrite lookup_take_lt.
      - done.
      - intros j q Hq Hj. unfold live in Hq.
        apply lookup_take_Some in Hq as [Hq _]. by eapply Hfirst. }
    rewrite Hfind. split_and!; try done; apply mark_stopped_is_stopped_version.
  - intros status'. by rewrite handle_signal_one.
Qed.

(** The exit of pid 100, the one process that was started. *)
Lemma child_exit_marks_first_holder_witness :
  let st' := handle_signal SIGCHLD [(100%Z, 0%Z)] one_service in
  ((forall p, p ∈ live one_service -> pid p <> 100%Z) -> st' = one_service)
  /\ (forall i p,
        (i < process_count one_service)%nat ->
        processes one_service !! i = Some p -> pid p = 100%Z ->
        (forall j q, (j < i)%nat -> processes one_service !! j = Some q ->
                     pid q <> 100%Z) ->
        processes st' = <[i := mark_stopped p]> (processes one_service)
        /\ stopped_version p (mark_stopped p)
        /\ process_count st' = process_count one_service
        /\ current_runlevel st' = current_runlevel one_service
        /\ fork_calls st' = fork_calls one_service
        /\ log_lines st'
           = (log_lines one_service
              ++ [("INFO", finished_message (command p) 100)])%list)
  /\ (forall status', handle_signal SIGCHLD [(100%Z, status')] one_service = st').
Proof.
  apply (child_exit_marks_first_holder 100 0 one_service). lia.
Defined.

(** C8, the claim as stated fails: the record of pid 100 ends in the same
    state, "stopped", whether the child exited with status 0 or with status
    1; no exit status is recorded. *)
Lemma exit_status_is_not_recorded :
  map pid (live one_service) = [100%Z]
  /\ handle_signal SIGCHLD [(100%Z, 0%Z)] one_service
     = handle_signal SIGCHLD [(100%Z, 1%Z)] one_service
  /\ map state (live (handle_signal SIGCHLD [(100%Z, 1%Z)] one_service))
     = ["stopped"]
  /\ map active (live (handle_signal SIGCHLD [(100%Z, 1%Z)] one_service))
     = [false].
Proof. by vm_compute. Qed.

(** ** What the operations keep *)

Lemma frame_refl st : frame st st.
Proof. done. Qed.

Lemma frame_trans st1 st2 st3 : frame st1 st2 -> frame st2 st3 -> frame st1 st3.
Proof. intros [H1 H2] [H3 H4]. split; congruence. Qed.

Lemma runlevel_inv_ext st1 st2 :
  processes st2 = processes st1 -> process_count st2 = process_count st1 ->
  current_runlevel st2 = current_runlevel st1 ->
  runlevel_inv st1 -> runlevel_inv st2.
Proof.
  intros Hp Hn Hr Hinv i p Hi Hl. rewrite Hp in Hl. rewrite Hn in Hi.
  rewrite Hr. by eapply Hinv.
Qed.

Lemma start_process_frame command runlevel dependencies memory_limit cpu_limit st :
  frame st (snd (start_process command runlevel dependencies
                   memory_limit cpu_limit st)).
Proof.
  destruct (start_process_cases command runlevel dependencies memory_limit
              cpu_limit st)
    as [(_ & ->)|[(_ & _ & ->)|[(_ & _ & _ & ->)|(child & _ & _ & _ & ->)]]];
    split; cbn; try done.
  by rewrite length_insert.
Qed.

(** [start_process] moves the process count up by one, below MAX_PROCESSES,
    or not at all. *)
Lemma start_process_count command runlevel dependencies memory_limit cpu_limit st :
  let st' := snd (start_process command runlevel dependencies
                    memory_limit cpu_limit st) in
  process_count st' = process_count st
  \/ ((process_count st < MAX_PROCESSES)%nat /\ process_count st' = S (process_count st)).
Proof.
  cbv zeta.
  destruct (start_process_cases command runlevel dependencies memory_limit
              cpu_limit st)
    as [(_ & ->)|[(_ & _ & ->)|[(_ & _ & _ & ->)|(child & Hcap & _ & _ & ->)]]];
    cbn; auto.
Qed.

Lemma start_process_inv command runlevel dependencies memory_limit cpu_limit st :
  runlevel = current_runlevel st -> runlevel_inv st ->
  runlevel_inv (snd (start_process command runlevel dependencies
                       memory_limit cpu_limit st)).
Proof.
  intros Hrl Hinv.
  destruct (start_process_cases command runlevel dependencies memory_limit
              cpu_limit st)
    as [(_ & ->)|[(_ & _ & ->)|[(_ & _ & _ & ->)|(child & Hcap & _ & _ & ->)]]];
    cbn [snd]; try by eapply runlevel_inv_ext; [..|exact Hinv].
  intros i p Hi Hl. cbn in Hi, Hl |- *.
  apply list_lookup_insert_Some in Hl as [(<- & <- & _)|(Hne & Hl)]; [done|].
  apply (Hinv i p); [lia|done].
Qed.

Lemma retry_loop_frame attempts command runlevel dependencies
    memory_limit cpu_limit st :
  frame st (snd (retry_loop attempts command runlevel dependencies
                   memory_limit cpu_limit st)).
Proof.
  revert st. induction attempts as [|attempts IH]; intros st; [done|].
  cbn [retry_loop]. destruct (check_all_dependencies_active dependencies st).
  - apply start_process_frame.
  - eapply frame_trans; [|apply IH]. done.
Qed.

Lemma retry_loop_count attempts command runlevel dependencies
    memory_limit cpu_limit st :
  let st' := snd (retry_loop attempts command runlevel dependencies
                    memory_limit cpu_limit st) in
  process_count st' = process_count st
  \/ ((process_count st < MAX_PROCESSES)%nat /\ process_count st' = S (process_count st)).
Proof.
  cbv zeta. revert st. induction attempts as [|attempts IH]; intros st; [by left|].
  cbn [retry_loop]. destruct (check_all_dependencies_active dependencies st).
  - apply start_process_count.
  - apply (IH (sleep 1 st)).
Qed.

Lemma retry_loop_inv attempts command runlevel dependencies
    memory_limit cpu_limit st :
  runlevel = current_runlevel st -> runlevel_inv st ->
  runlevel_inv (snd (retry_loop attempts command runlevel dependencies
                       memory_limit cpu_limit st)).
Proof.
  revert st. induction attempts as [|attempts IH]; intros st Hrl Hinv.
  - by eapply runlevel_inv_ext; [..|exact Hinv].
  - cbn [retry_loop]. destruct (check_all_dependencies_active dependencies st).
    + by apply start_process_inv.
    + apply IH; [done|]. by eapply runlevel_inv_ext; [..|exact Hinv].
Qed.

Lemma init_processes_entry_frame r c d m u st :
  frame st (init_processes_entry r c d m u st).
Proof.
  unfold init_processes_entry. destruct (r =? current_runlevel st)%Z; [|done].
  apply retry_loop_frame.
Qed.

Lemma init_processes_entry_inv r c d m u st :
  runlevel_inv st -> runlevel_inv (init_processes_entry r c d m u st).
Proof.
  intros Hinv. unfold init_processes_entry.
  destruct (r =? current_runlevel st)%Z eqn:Hr; [|done].
  apply Z.eqb_eq in Hr. by apply retry_loop_inv.
Qed.

Lemma init_processes_line_frame line st : frame st (init_processes_line line st).
Proof.
  unfold init_processes_line.
  repeat case_match; try apply frame_refl. apply init_processes_entry_frame.
Qed.

Lemma init_processes_line_inv line st :
  runlevel_inv st -> runlevel_inv (init_processes_line line st).
Proof.
  intros Hinv. unfold init_processes_line.
  repeat case_match; try done. by apply init_processes_entry_inv.
Qed.

Lemma init_processes_frame st : frame st (init_processes st).
Proof.
  unfold init_processes. destruct (config st) as [content|]; [|done].
  generalize (config_lines content). intros lines. revert st.
  induction lines as [|line lines IH]; intros st; [done|].
  cbn [foldl]. eapply frame_trans; [apply init_processes_line_frame|apply IH].
Qed.

Lemma init_processes_inv st : runlevel_inv st -> runlevel_inv (init_processes st).
Proof.
  unfold init_processes. destruct (config st) as [content|]; [|done].
  generalize (config_lines content). intros lines. revert st.
  induction lines as [|line lines IH]; intros st Hinv; [done|].
  cbn [foldl]. by apply IH, init_processes_line_inv.
Qed.

Lemma reap_child_frame child st : frame st (reap_child child st).
Proof.
  unfold reap_child. destruct (list_find _ _) as [[i p]|]; [|done].
  split; cbn; [done|]. by rewrite length_insert.
Qed.

Lemma reap_child_count child st :
  process_count (reap_child child st) = process_count st.
Proof. unfold reap_child. by destruct (list_find _ _) as [[i p]|]. Qed.

(** Marking a live record stopped keeps every other field of the table. *)
Lemma mark_stopped_inv i p st st1 :
  live st !! i = Some p ->
  processes st1 = processes st -> process_count st1 = process_count st ->
  current_runlevel st1 = current_runlevel st ->
  runlevel_inv st ->
  runlevel_inv (set_table (<[i := mark_stopped p]> (processes st1))
                  (process_count st1) st1).
Proof.
  intros Hp Hps Hn Hr Hinv j q Hj Hq. cbn in Hj, Hq |- *.
  unfold live in Hp. apply lookup_take_Some in Hp as [Hp Hi].
  rewrite Hps in Hq. rewrite Hr.
  apply list_lookup_insert_Some in Hq as [(<- & <- & _)|(Hne & Hq)].
  - by apply (Hinv i p).
  - apply (Hinv j q); [lia|done].
Qed.

Lemma reap_child_inv child st : runlevel_inv st -> runlevel_inv (reap_child child st).
Proof.
  intros Hinv. unfold reap_child.
  destruct (list_find _ _) as [[i p]|] eqn:Hfind; [|done].
  apply list_find_Some in Hfind as (Hp & _ & _).
  by apply (mark_stopped_inv i p st).
Qed.

Lemma commands_reap_child child st : commands (reap_child child st) = commands st.
Proof.
  unfold reap_child.
  destruct (list_find _ _) as [[i p]|] eqn:Hfind; [|done].
  apply list_find_Some in Hfind as (Hp & _ & _).
  unfold commands, live in *. cbn.
  apply lookup_take_Some in Hp as [Hp Hi].
  rewrite take_insert_lt by done.
  change (map command ?l) with (command <$> l).
  rewrite list_fmap_insert. apply list_insert_id.
  rewrite list_lookup_fmap, lookup_take_lt, Hp by done. done.
Qed.

Lemma reap_loop_frame waited st : frame st (reap_loop waited st).
Proof.
  revert st. induction waited as [|[child status] waited IH]; intros st; [done|].
  cbn [reap_loop]. destruct (child <=? 0)%Z; [done|].
  eapply frame_trans; [apply reap_child_frame|apply IH].
Qed.

Lemma reap_loop_count waited st :
  process_count (reap_loop waited st) = process_count st.
Proof.
  revert st. induction waited as [|[child status] waited IH]; intros st; [done|].
  cbn [reap_loop]. destruct (child <=? 0)%Z; [done|].
  by rewrite IH, reap_child_count.
Qed.

Lemma reap_loop_inv waited st : runlevel_inv st -> runlevel_inv (reap_loop waited st).
Proof.
  revert st. induction waited as [|[child status] waited IH]; intros st Hinv; [done|].
  cbn [reap_loop]. destruct (child <=? 0)%Z; [done|].
  by apply IH, reap_child_inv.
Qed.

Lemma commands_reap_loop waited st : commands (reap_loop waited st) = commands st.
Proof.
  revert st. induction waited as [|[child status] waited IH]; intros st; [done|].
  cbn [reap_loop]. destruct (child <=? 0)%Z; [done|].
  by rewrite IH, commands_reap_child.
Qed.

Lemma stop_active_length st :
  length (processes (stop_active st)) = length (processes st).
Proof.
  cbn. rewrite length_app, length_map, length_take, length_drop. lia.
Qed.

Lemma switch_runlevel_length n st :
  length (processes (switch_runlevel n st)) = length (processes st).
Proof.
  unfold switch_runlevel.
  destruct ((n <? 0)%Z || (MAX_RUNLEVELS <=? n)%Z); [done|].
  destruct (init_processes_frame
              (set_process_count 0
                 (stop_active
                    (set_current_runlevel n
                       (log_message "INFO"
                          (switching_message (current_runlevel st) n) st)))))
    as [_ ->].
  cbn [set_process_count set_table processes]. by rewrite stop_active_length.
Qed.

Lemma switch_runlevel_inv n st : runlevel_inv (switch_runlevel n st) \/
  switch_runlevel n st = log_message "ERROR" "Invalid runlevel" st.
Proof.
  unfold switch_runlevel.
  destruct ((n <? 0)%Z || (MAX_RUNLEVELS <=? n)%Z); [by right|].
  left. apply init_processes_inv. intros i p Hi. cbn in Hi. lia.
Qed.

Lemma reload_configuration_frame st : frame st (reload_configuration st).
Proof.
  unfold reload_configuration. eapply frame_trans; [|apply init_processes_frame]. done.
Qed.

Lemma reload_configuration_inv st : runlevel_inv (reload_configuration st).
Proof.
  unfold reload_configuration. apply init_processes_inv.
  intros i p Hi. cbn in Hi. lia.
Qed.

Lemma manage_services_frame verb name st : frame st (manage_services verb name st).
Proof.
  unfold manage_services. repeat case_match; try done.
  - apply start_process_frame.
  - split; cbn; [done|]. by rewrite length_insert.
Qed.

Lemma manage_services_inv verb name st :
  runlevel_inv st -> runlevel_inv (manage_services verb name st).
Proof.
  intros Hinv. unfold manage_services.
  destruct (CLib.strcmp_eq verb "start").
  - destruct (list_find _ _) as [[i p]|] eqn:Hfind; [|done].
    apply list_find_Some in Hfind as (Hp & _ & _).
    apply start_process_inv; [|done].
    unfold live in Hp. apply lookup_take_Some in Hp as [Hp Hi]. by apply (Hinv i p).
  - destruct (CLib.strcmp_eq verb "stop"); [|done].
    destruct (list_find _ _) as [[i p]|] eqn:Hfind; [|done].
    apply list_find_Some in Hfind as (Hp & _ & _).
    by apply (mark_stopped_inv i p st).
Qed.

(** ** The health scan *)

Lemma health_check_at_frame i st : frame st (health_check_at i st).
Proof.
  unfold health_check_at. destruct (processes st !! i) as [p|]; [|done].
  destruct (active p); [done|].
  eapply frame_trans; [|apply retry_loop_frame]. done.
Qed.

Lemma health_check_at_count i st :
  let st' := health_check_at i st in
  process_count st' = process_count st
  \/ ((process_count st < MAX_PROCESSES)%nat /\ process_count st' = S (process_count st)).
Proof.
  cbv zeta. unfold health_check_at. destruct (processes st !! i) as [p|]; [|by left].
  destruct (active p); [by left|].
  apply (retry_loop_count 3 (command p) (runlevel p) (dependencies p)
           (memory_limit p) (cpu_limit p)
           (log_message "INFO" (restarting_message (command p)) st)).
Qed.

Lemma health_check_at_inv i st :
  (i < process_count st)%nat -> runlevel_inv st -> runlevel_inv (health_check_at i st).
Proof.
  intros Hi Hinv. unfold health_check_at.
  destruct (processes st !! i) as [p|] eqn:Hp; [|done].
  destruct (active p); [done|].
  apply retry_loop_inv; [by apply (Hinv i p)|].
  by eapply runlevel_inv_ext; [..|exact Hinv].
Qed.

(** The scan ends within the fuel it is given. *)
Lemma health_check_loop_ends fuel i st :
  (process_count st `max` MAX_PROCESSES <= fuel + i)%nat ->
  is_Some (health_check_loop fuel i st).
Proof.
  revert i st. induction fuel as [|fuel IH]; intros i st Hfuel.
  - cbn [health_check_loop].
    destruct (process_count st <=? i)%nat eqn:Hend; [done|].
    apply Nat.leb_gt in Hend. lia.
  - cbn [health_check_loop]. destruct (process_count st <=? i)%nat; [done|].
    apply IH. destruct (health_check_at_count i st) as [->|[Hcap ->]]; lia.
Qed.

Lemma health_check_pass_ends st : is_Some (health_check_pass st).
Proof. unfold health_check_pass. apply health_check_loop_ends. lia. Qed.

Lemma health_check_loop_frame fuel i st st' :
  health_check_loop fuel i st = Some st' -> frame st st'.
Proof.
  revert i st. induction fuel as [|fuel IH]; intros i st; cbn [health_check_loop];
    destruct (process_count st <=? i)%nat; intros H; simplify_eq; try done.
  eapply frame_trans; [apply health_check_at_frame|by eapply IH].
Qed.

Lemma health_check_loop_inv fuel i st st' :
  health_check_loop fuel i st = Some st' -> runlevel_inv st -> runlevel_inv st'.
Proof.
  revert i st. induction fuel as [|fuel IH]; intros i st; cbn [health_check_loop];
    destruct (process_count st <=? i)%nat eqn:Hi; intros H Hinv; simplify_eq;
    try done.
  apply Nat.leb_gt in Hi. eapply IH; [done|]. by apply health_check_at_inv.
Qed.

Lemma step_frame ev st :
  (forall n, ev <> RunlevelSwitch n) -> frame st (step ev st).
Proof.
  intros Hev. destruct ev as [|r c d m u|waited| |n| |verb name]; cbn [step].
  - apply init_processes_frame.
  - apply init_processes_entry_frame.
  - apply reap_loop_frame.
  - destruct (health_check_pass st) as [st'|] eqn:Hpass; [|done].
    unfold health_check_pass in Hpass. apply health_check_loop_frame in Hpass.
    eapply frame_trans; [|exact Hpass]. done.
  - by destruct (Hev n).
  - apply reload_configuration_frame.
  - apply manage_services_frame.
Qed.

Lemma step_inv ev st : runlevel_inv st -> runlevel_inv (step ev st).
Proof.
  intros Hinv. destruct ev as [|r c d m u|waited| |n| |verb name]; cbn [step].
  - by apply init_processes_inv.
  - by apply init_processes_entry_inv.
  - by apply reap_loop_inv.
  - destruct (health_check_pass st) as [st'|] eqn:Hpass; [|done].
    unfold health_check_pass in Hpass.
    eapply health_check_loop_inv; [exact Hpass|].
    by eapply runlevel_inv_ext; [..|exact Hinv].
  - destruct (switch_runlevel_inv n st) as [H| ->]; [done|].
    by eapply runlevel_inv_ext; [..|exact Hinv].
  - apply reload_configuration_inv.
  - by apply manage_services_inv.
Qed.

(** The table keeps its MAX_PROCESSES slots. *)
Lemma step_table_ok ev st : table_ok st -> table_ok (step ev st).
Proof.
  unfold table_ok. intros Hok.
  assert (Hev : (exists n, ev = RunlevelSwitch n) \/ forall n, ev <> RunlevelSwitch n).
  { destruct ev; try by right. left. by eexists. }
  destruct Hev as [[n ->]|Hev].
  - change (length (processes (switch_runlevel n st)) = MAX_PROCESSES).
    by rewrite switch_runlevel_length.
  - by destruct (step_frame ev st Hev) as [_ ->].
Qed.

Lemma run_table_ok evs st : table_ok st -> table_ok (run evs st).
Proof.
  revert st. induction evs as [|ev evs IH]; intros st Hok; [done|].
  cbn. by apply IH, step_table_ok.
Qed.

(** ** Uniqueness of commands *)

Lemma commands_start_process command runlevel dependencies memory_limit cpu_limit
    st child :
  table_ok st ->
  fst (start_process command runlevel dependencies memory_limit cpu_limit st)
    = Started child ->
  commands (snd (start_process command runlevel dependencies
                   memory_limit cpu_limit st))
  = (commands st ++ [CLib.strncpy 256 command])%list.
Proof.
  intros Hok.
  destruct (start_process_cases command runlevel dependencies memory_limit
              cpu_limit st)
    as [(_ & ->)|[(_ & _ & ->)|[(_ & _ & _ & ->)|(c & Hcap & _ & _ & ->)]]];
    cbn [fst snd]; intros Hres; try done.
  unfold commands, live. cbn.
  unfold table_ok in Hok.
  erewrite take_S_r; [|apply list_lookup_insert_eq; lia].
  rewrite take_insert_ge by lia. by rewrite map_app.
Qed.

Lemma substring_short n s :
  (String.length s <= n)%nat -> String.substring 0 n s = s.
Proof.
  revert n. induction s as [|c s IH]; intros n Hn; [by destruct n|].
  destruct n as [|n]; [simpl in Hn; lia|].
  cbn [String.substring]. rewrite IH; [done|]. simpl in Hn. lia.
Qed.

(** The retry wrapper adds at most one record, for the command it was given. *)
Lemma retry_loop_commands attempts command runlevel dependencies
    memory_limit cpu_limit st :
  table_ok st ->
  let st' := snd (retry_loop attempts command runlevel dependencies
                    memory_limit cpu_limit st) in
  (process_count st' = process_count st /\ commands st' = commands st)
  \/ (process_count st' = S (process_count st)
      /\ commands st' = (commands st ++ [CLib.strncpy 256 command])%list).
Proof.
  cbv zeta. revert st. induction attempts as [|attempts IH]; intros st Hok.
  { by left. }
  cbn [retry_loop]. destruct (check_all_dependencies_active dependencies st).
  - cbn [snd].
    pose proof (commands_start_process command runlevel dependencies memory_limit
                  cpu_limit st) as Hc.
    destruct (start_process_cases command runlevel dependencies memory_limit
                cpu_limit st)
      as [(_ & Hr)|[(_ & _ & Hr)|[(_ & _ & _ & Hr)|(c & _ & _ & _ & Hr)]]];
      cbv zeta in Hr; rewrite Hr in Hc |- *; cbn [fst snd] in Hc |- *;
      try by left.
    right. split; [done|]. by eapply Hc.
  - apply (IH (sleep 1 st)). done.
Qed.

Lemma strncpy_short n s : (String.length s < n)%nat -> CLib.strncpy n s = s.
Proof. intros Hn. unfold CLib.strncpy. apply substring_short. lia. Qed.

(** C6 (as amended).  [start_process] appends the record of the process it
    starts without looking for a record with the same command: after a
    successful start of a command shorter than 256 bytes the recorded
    commands are the ones recorded before, followed by the started command,
    so they are unique afterwards exactly when they were unique before and
    the started command was not yet recorded.  Child exits never add or
    rename a record. *)
Theorem command_uniqueness_by_operation :
  (forall command runlevel dependencies memory_limit cpu_limit st child,
     table_ok st ->
     (String.length command < 256)%nat ->
     fst (start_process command runlevel dependencies memory_limit cpu_limit st)
       = Started child ->
     let st' := snd (start_process command runlevel dependencies
                       memory_limit cpu_limit st) in
     commands st' = (commands st ++ [command])%list
     /\ (unique_commands st' <-> unique_commands st /\ command ∉ commands st))
  /\ (forall waited st, commands (handle_signal SIGCHLD waited st) = commands st).
Proof.
  split.
  - intros command runlevel dependencies memory_limit cpu_limit st child Hok Hlen Hres.
    cbv zeta.
    pose proof (commands_start_process _ _ _ _ _ _ _ Hok Hres) as Hc.
    rewrite strncpy_short in Hc by done.
    split; [done|].
    unfold unique_commands. rewrite Hc, NoDup_app. split.
    + intros (Hnd & Hfresh & _). split; [done|].
      intros Hin. apply (Hfresh _ Hin). by apply list_elem_of_singleton.
    + intros (Hnd & Hfresh). split_and!; [done| |apply NoDup_singleton].
      intros x Hin Hx. apply list_elem_of_singleton in Hx. by subst.
  - intros waited st. apply commands_reap_loop.
Qed.

(** The first start of [/bin/a] from the empty registry. *)
Lemma command_uniqueness_by_operation_witness :
  let st := boot_state None forks_succeed in
  let st' := snd (start_process "/bin/a" 0 "" 0 0 st) in
  commands st' = (commands st ++ ["/bin/a"])%list
  /\ (unique_commands st' <-> unique_commands st /\ "/bin/a" ∉ commands st).
Proof.
  apply (proj1 command_uniqueness_by_operation "/bin/a" 0%Z "" 0%Z 0%Z
           (boot_state None forks_succeed) 100%Z);
    [reflexivity|cbn; lia|reflexivity].
Defined.

(** C6, the claim as stated fails: [/bin/a] runs as pid 100 and
    [start_process] is called for [/bin/a] once more.  The start succeeds
    and the registry holds two active records with the command [/bin/a]. *)
Lemma second_start_duplicates_command :
  let result := start_process "/bin/a" 0 "" 0 0 one_service in
  unique_commands one_service
  /\ fst result = Started 101
  /\ process_count (snd result) = 2%nat
  /\ commands (snd result) = ["/bin/a"; "/bin/a"]
  /\ map active (live (snd result)) = [true; true]
  /\ ~ unique_commands (snd result).
Proof.
  cbv zeta. split_and!; [|by vm_compute..|].
  - unfold unique_commands.
    replace (commands one_service) with ["/bin/a"] by by vm_compute.
    apply NoDup_singleton.
  - unfold unique_commands.
    replace (commands _) with ["/bin/a"; "/bin/a"] by by vm_compute.
    intros Hnd. apply NoDup_cons in Hnd as [Hnotin _].
    apply Hnotin. by apply list_elem_of_singleton.
Qed.

(** ** The runlevel invariant *)

Lemma run_inv evs st : runlevel_inv st -> runlevel_inv (run evs st).
Proof.
  revert st. induction evs as [|ev evs IH]; intros st Hinv; [done|].
  cbn. by apply IH, step_inv.
Qed.

Lemma boot_state_inv cfg oracle : runlevel_inv (boot_state cfg oracle).
Proof. intros i p Hi. cbn in Hi. lia. Qed.

(** C10.  Every record below the process count carries the current
    runlevel: this holds when the supervisor boots, every operation
    preserves it, and so it holds after every sequence of operations.  An
    inittab entry whose runlevel differs from the current one inserts
    nothing.  The current runlevel changes only in a switch to a valid
    runlevel [n], and there the table is reseeded by [init_processes] from a
    state whose process count is 0 and whose runlevel is already [n]. *)
Theorem runlevel_invariant :
  (forall cfg oracle, runlevel_inv (boot_state cfg oracle))
  /\ (forall ev st, runlevel_inv st -> runlevel_inv (step ev st))
  /\ (forall evs cfg oracle, runlevel_inv (run evs (boot_state cfg oracle)))
  /\ (forall r c d m u st,
        r <> current_runlevel st -> init_processes_entry r c d m u st = st)
  /\ (forall ev st,
        current_runlevel (step ev st) <> current_runlevel st ->
        exists n st0,
          ev = RunlevelSwitch n /\ (0 <= n < MAX_RUNLEVELS)%Z
          /\ process_count st0 = 0%nat /\ current_runlevel st0 = n
          /\ processes st0 = processes (stop_active st)
          /\ step ev st = init_processes st0).
Proof.
  split_and!.
  - apply boot_state_inv.
  - apply step_inv.
  - intros evs cfg oracle. apply run_inv, boot_state_inv.
  - intros r c d m u st Hr. unfold init_processes_entry.
    destruct (r =? current_runlevel st)%Z eqn:He; [|done].
    by apply Z.eqb_eq in He.
  - intros ev st Hchange.
    assert (Hev : (exists n, ev = RunlevelSwitch n) \/ forall n, ev <> RunlevelSwitch n).
    { destruct ev; try by right. left. by eexists. }
    destruct Hev as [[n ->]|Hev].
    2: { by destruct (step_frame ev st Hev) as [Hr _]. }
    cbn [step] in Hchange |- *. unfold switch_runlevel in Hchange |- *.
    destruct (n <? 0)%Z eqn:Hlo; [done|].
    destruct (MAX_RUNLEVELS <=? n)%Z eqn:Hhi; [done|].
    apply Z.ltb_ge in Hlo. apply Z.leb_gt in Hhi. cbn [orb] in Hchange |- *.
    eexists n, _. split_and!; [done|lia|..|reflexivity]; done.
Qed.

(** * Further properties of the program *)

(** ** init_processes, reload_configuration *)

Lemma init_processes_effect st :
  init_processes st
  = match config st with
    | Some _ => st
    | None => log_message "ERROR" "Could not open configuration file" st
    end.
Proof.
  destruct (config st) as [content|] eqn:Hc.
  - by apply init_processes_starts_nothing with content.
  - unfold init_processes. by rewrite Hc.
Qed.

(** X1.  [init_processes] starts nothing, whatever a configuration file
    with no line longer than 255 bytes holds: when the file opens the system
    is left exactly as it was, and when it does not open the ERROR line is
    the only effect.  In both cases the table, the process count and the
    number of forks are unchanged. *)
Theorem init_processes_never_starts (st : System) :
  config_fits st ->
  (forall content, config st = Some content -> init_processes st = st)
  /\ (config st = None ->
      init_processes st
      = log_message "ERROR" "Could not open configuration file" st)
  /\ processes (init_processes st) = processes st
  /\ process_count (init_processes st) = process_count st
  /\ current_runlevel (init_processes st) = current_runlevel st
  /\ fork_calls (init_processes st) = fork_calls st
  /\ sigterm_sent (init_processes st) = sigterm_sent st
  /\ seconds_slept (init_processes st) = seconds_slept st.
Proof.
  intros _. rewrite init_processes_effect. split_and!.
  - by intros content ->.
  - by intros ->.
  - by destruct (config st).
  - by destruct (config st).
  - by destruct (config st).
  - by destruct (config st).
  - by destruct (config st).
  - by destruct (config st).
Qed.

(** The example inittab at boot. *)
Lemma init_processes_never_starts_witness :
  let st := boot_state (Some example_inittab) forks_succeed in
  init_processes st = st
  /\ processes (init_processes st) = processes st
  /\ process_count (init_processes st) = process_count st
  /\ fork_calls (init_processes st) = fork_calls st.
Proof.
  destruct (init_processes_never_starts
              (boot_state (Some example_inittab) forks_succeed))
    as (Hsame & _ & Hp & Hc & _ & Hf & _).
  - unfold config_fits, file_fits. vm_compute. repeat constructor.
  - cbv zeta. split_and!; [by apply (Hsame example_inittab)|done..].
Defined.

(** ** The stop loop of switch_runlevel and graceful_shutdown *)

Lemma live_stop_active st : live (stop_active st) = map stopped_if_active (live st).
Proof.
  unfold live, stop_active. cbn [processes process_count set_table kill_sigterm].
  set (n := process_count st). set (ps := processes st).
  change (map (fun p => if active p then mark_stopped p else p) (take n ps))
    with (map stopped_if_active (take n ps)).
  rewrite take_app_ge; [|rewrite length_map, length_take; lia].
  rewrite length_map, length_take.
  destruct (decide (n <= length ps)%nat) as [Hle|Hgt].
  - replace (n - n `min` length ps)%nat with 0%nat by lia.
    by rewrite take_0, app_nil_r.
  - rewrite drop_ge by lia. by rewrite take_nil, app_nil_r.
Qed.

Lemma stop_active_lookup_below st i p :
  (i < process_count st)%nat -> processes st !! i = Some p ->
  processes (stop_active st) !! i = Some (stopped_if_active p).
Proof.
  intros Hi Hp. cbn [stop_active processes set_table kill_sigterm].
  rewrite lookup_app_l.
  - change (map ?f ?l) with (f <$> l).
    by rewrite list_lookup_fmap, lookup_take_lt, Hp.
  - rewrite length_map, length_take. apply lookup_lt_Some in Hp. lia.
Qed.

Lemma stop_active_lookup_above st i :
  (process_count st <= i)%nat ->
  processes (stop_active st) !! i = processes st !! i.
Proof.
  intros Hi. cbn [stop_active processes set_table kill_sigterm].
  set (n := process_count st) in *. set (ps := processes st).
  destruct (decide (n <= length ps)%nat) as [Hle|Hgt].
  - rewrite lookup_app_r; rewrite length_map, length_take_le by done; [|done].
    rewrite lookup_drop. f_equal. lia.
  - rewrite drop_ge, app_nil_r by lia.
    rewrite take_ge by lia.
    rewrite !lookup_ge_None_2; [done|lia|rewrite length_map; lia].
Qed.

Lemma stopped_if_active_inactive p : active (stopped_if_active p) = false.
Proof. unfold stopped_if_active. by destruct (active p) eqn:H. Qed.

(** The kill loop over the indices from [k], when its waits are quiet: the
    records at these indices are stopped if active, and their pids get
    SIGTERM in table order. *)
Lemma handlers_without_report handled st :
  Forall (fun waited => waited = []) handled ->
  foldl (fun s waited => handle_signal SIGCHLD waited s) st handled = st.
Proof.
  induction 1 as [|waited handled -> _ IH]; [done|]. cbn [foldl]. exact IH.
Qed.

Lemma stop_loop_quiet waits m k st :
  (forall i, (k <= i < k + m)%nat -> quiet_wait (waits i)) ->
  stop_loop waits (seq k m) st
  = Some (set_table
            (take k (processes st)
             ++ map stopped_if_active (take m (drop k (processes st)))
             ++ drop (k + m) (processes st))%list
            (process_count st)
            (kill_sigterm
               (map pid (filter (fun p => active p = true)
                           (take m (drop k (processes st))))) st)).
Proof.
  revert k st. induction m as [|m IH]; intros k st Hq.
  - cbn [seq stop_loop]. f_equal.
    rewrite take_0, Nat.add_0_r. cbn [map filter app]. rewrite take_drop.
    destruct st. unfold set_table, kill_sigterm. cbn. by rewrite app_nil_r.
  - cbn [seq stop_loop].
    destruct (processes st !! k) as [p|] eqn:Hk.
    + assert (Hdrop : drop k (processes st) = p :: drop (S k) (processes st)).
      { by rewrite <- (drop_S _ _ _ Hk). }
      destruct (active p) eqn:Ha.
      * pose proof (Hq k ltac:(lia)) as Hw.
        destruct (waits k) as [handled|]; [|done]. cbn [quiet_wait] in Hw.
        rewrite (handlers_without_report handled _ Hw).
        cbn [kill_sigterm processes]. rewrite Hk.
        rewrite IH by (intros i Hi; apply Hq; lia). f_equal.
        cbn [set_table kill_sigterm processes process_count current_runlevel
             log_lines config fork_oracle fork_calls sigterm_sent seconds_slept].
        assert (Hlt : (k < length (processes st))%nat) by by eapply lookup_lt_Some.
        rewrite Hdrop. cbn [take map].
        rewrite filter_cons_True by done. cbn [map].
        rewrite (take_S_r (<[k:=mark_stopped p]> (processes st)) k (mark_stopped p))
          by (by rewrite list_lookup_insert_eq).
        rewrite take_insert_ge by lia.
        replace (S k + m)%nat with (k + S m)%nat by lia.
        rewrite !drop_insert_lt by lia.
        unfold stopped_if_active at 2. rewrite Ha.
        unfold set_table, kill_sigterm.
        cbn [processes process_count current_runlevel log_lines config
             fork_oracle fork_calls sigterm_sent seconds_slept].
        rewrite <- !app_assoc. by cbn [app].
      * rewrite IH by (intros i Hi; apply Hq; lia). f_equal.
        rewrite Hdrop. cbn [take map].
        rewrite filter_cons_False by (rewrite Ha; done).
        rewrite (take_S_r (processes st) k p) by done.
        replace (S k + m)%nat with (k + S m)%nat by lia.
        unfold stopped_if_active at 2. rewrite Ha.
        rewrite <- !app_assoc. by cbn [app].
    + assert (Hge : (length (processes st) <= k)%nat) by by apply lookup_ge_None.
      rewrite IH by (intros i Hi; apply Hq; lia). f_equal.
      rewrite !(drop_ge (processes st)) by lia.
      rewrite !(take_ge (processes st)) by lia. by rewrite !take_nil.
Qed.

(** With quiet waits the kill loop is [stop_active]. *)
Lemma stop_active_waiting_quiet waits st :
  waits_quiet waits st -> stop_active_waiting waits st = Some (stop_active st).
Proof.
  intros Hq. unfold stop_active_waiting.
  rewrite stop_loop_quiet by (intros i Hi; apply Hq; lia).
  reflexivity.
Qed.

(** The kill loop does not return when the wait for an active record
    blocks, the waits before being quiet. *)
Lemma stop_loop_blocks waits m k st i p :
  (k <= i < k + m)%nat ->
  processes st !! i = Some p -> active p = true ->
  waits i = wait_blocks ->
  (forall j, (k <= j < i)%nat -> quiet_wait (waits j)) ->
  stop_loop waits (seq k m) st = None.
Proof.
  revert k st. induction m as [|m IH]; intros k st Hi Hp Ha Hb Hq; [lia|].
  cbn [seq stop_loop].
  destruct (decide (k = i)) as [->|Hne].
  - by rewrite Hp, Ha, Hb.
  - destruct (processes st !! k) as [q|] eqn:Hk.
    + destruct (active q) eqn:Haq.
      * pose proof (Hq k ltac:(lia)) as Hw.
        destruct (waits k) as [handled|] eqn:Hwk; [|done]. cbn [quiet_wait] in Hw.
        rewrite (handlers_without_report handled _ Hw).
        cbn [kill_sigterm processes]. rewrite Hk.
        apply IH; [lia| |done..|intros j Hj; apply Hq; lia].
        cbn [set_table processes]. by rewrite list_lookup_insert_ne.
      * apply IH; [lia|done..|intros j Hj; apply Hq; lia].
    + apply IH; [lia|done..|intros j Hj; apply Hq; lia].
Qed.

Lemma graceful_shutdown_blocks waits st i p :
  (i < process_count st)%nat ->
  processes st !! i = Some p -> active p = true ->
  waits i = wait_blocks ->
  (forall j, (j < i)%nat -> quiet_wait (waits j)) ->
  graceful_shutdown waits st = None.
Proof.
  intros Hi Hp Ha Hb Hq. unfold graceful_shutdown, stop_active_waiting.
  rewrite (stop_loop_blocks waits _ 0 _ i p); [done| |done..|].
  - cbn [log_message process_count]. lia.
  - intros j Hj. apply Hq. lia.
Qed.

(** X2.  When every [waitpid] of its loop returns and a SIGCHLD handler that
    runs meanwhile finds no child left to report, [graceful_shutdown]
    reaches its [exit]: it has
    sent SIGTERM to the pids of exactly the records below the process count
    that were active, in table order, and leaves none of these records
    active: an active record is marked stopped, an inactive one and every
    slot from the process count on stay as they are.  It forks nothing,
    keeps the process count and the runlevel, and frames its work with two
    INFO lines. *)
Theorem graceful_shutdown_stops_active (waits : nat -> wait_result) (st : System) :
  waits_quiet waits st ->
  exists st',
    graceful_shutdown waits st = Some st'
    /\ sigterm_sent st' = (sigterm_sent st ++ active_pids st)%list
    /\ live st' = map stopped_if_active (live st)
    /\ Forall (fun p => active p = false) (live st')
    /\ (forall i, (process_count st <= i)%nat -> processes st' !! i = processes st !! i)
    /\ process_count st' = process_count st
    /\ current_runlevel st' = current_runlevel st
    /\ fork_calls st' = fork_calls st
    /\ log_lines st'
       = (log_lines st ++ [("INFO", "Shutting down init system...");
                           ("INFO", "All processes terminated. Exiting init.")])%list.
Proof.
  intros Hq. unfold graceful_shutdown.
  set (st1 := log_message "INFO" "Shutting down init system..." st).
  rewrite (stop_active_waiting_quiet waits st1) by exact Hq.
  eexists. split; [reflexivity|].
  assert (Hlive : live (stop_active st1) = map stopped_if_active (live st))
    by exact (live_stop_active st1).
  split_and!.
  - done.
  - done.
  - change (live (log_message _ _ (stop_active st1))) with (live (stop_active st1)).
    rewrite Hlive. apply Forall_forall. intros p Hp.
    apply list_elem_of_In, in_map_iff in Hp as (q & <- & _).
    apply stopped_if_active_inactive.
  - intros i Hi. by apply (stop_active_lookup_above st1).
  - done.
  - done.
  - done.
  - cbn. by rewrite <- app_assoc.
Qed.

(** Shutdown while [/bin/a] and [/bin/b] run and both terminate on
    SIGTERM; the handler runs after each [waitpid] has collected its
    child. *)
Lemma graceful_shutdown_stops_active_witness :
  exists st',
    graceful_shutdown (fun _ => wait_returns [[]]) two_services = Some st'
    /\ sigterm_sent st' = (sigterm_sent two_services ++ active_pids two_services)%list
    /\ live st' = map stopped_if_active (live two_services)
    /\ Forall (fun p => active p = false) (live st')
    /\ (forall i, (process_count two_services <= i)%nat ->
          processes st' !! i = processes two_services !! i)
    /\ process_count st' = process_count two_services
    /\ current_runlevel st' = current_runlevel two_services
    /\ fork_calls st' = fork_calls two_services
    /\ log_lines st'
       = (log_lines two_services
          ++ [("INFO", "Shutting down init system...");
              ("INFO", "All processes terminated. Exiting init.")])%list.
Proof.
  apply (graceful_shutdown_stops_active (fun _ => wait_returns [[]]) two_services).
  intros i _. cbn. by repeat constructor.
Defined.

(** ** switch_runlevel to a valid runlevel *)

Lemma switch_runlevel_valid_effect n st :
  (0 <= n < MAX_RUNLEVELS)%Z ->
  switch_runlevel n st
  = init_processes
      (set_process_count 0
         (stop_active
            (set_current_runlevel n
               (log_message "INFO"
                  (switching_message (current_runlevel st) n) st)))).
Proof.
  intros Hn. unfold switch_runlevel.
  destruct (n <? 0)%Z eqn:Hlo; [apply Z.ltb_lt in Hlo; lia|].
  destruct (MAX_RUNLEVELS <=? n)%Z eqn:Hhi; [apply Z.leb_le in Hhi; lia|].
  done.
Qed.

Lemma switch_runlevel_waiting_quiet waits n st :
  waits_quiet waits st ->
  switch_runlevel_waiting waits n st = Some (switch_runlevel n st).
Proof.
  intros Hq. unfold switch_runlevel_waiting, switch_runlevel.
  destruct ((n <? 0)%Z || (MAX_RUNLEVELS <=? n)%Z); [done|].
  by rewrite stop_active_waiting_quiet.
Qed.

(** X3.  A switch to a runlevel [n] with 0 <= n < MAX_RUNLEVELS, when every
    [waitpid] of its loop returns and a SIGCHLD handler that runs meanwhile
    finds no child left to report, and no line of the configuration file is
    longer than 255 bytes:
    the switch returns; it has made [n] the current runlevel, sent SIGTERM
    to the pids of exactly the active records below the process count (in
    table order), marked those records stopped, and set the process count
    to 0.  Slots from the old process count on are not touched and nothing
    is forked.  The log gets the INFO line of the switch, followed by the
    ERROR line of [init_processes] when the configuration file cannot be
    opened. *)
Theorem switch_runlevel_valid (waits : nat -> wait_result) (n : Z) (st : System) :
  (0 <= n < MAX_RUNLEVELS)%Z ->
  waits_quiet waits st ->
  config_fits st ->
  exists st',
    switch_runlevel_waiting waits n st = Some st'
    /\ current_runlevel st' = n
    /\ process_count st' = 0%nat
    /\ sigterm_sent st' = (sigterm_sent st ++ active_pids st)%list
    /\ (forall i p, (i < process_count st)%nat -> processes st !! i = Some p ->
          processes st' !! i = Some (stopped_if_active p))
    /\ (forall i, (process_count st <= i)%nat -> processes st' !! i = processes st !! i)
    /\ fork_calls st' = fork_calls st
    /\ log_lines st'
       = (log_lines st
          ++ ("INFO", switching_message (current_runlevel st) n)
             :: match config st with
                | Some _ => []
                | None => [("ERROR", "Could not open configuration file")]
                end)%list.
Proof.
  intros Hn Hq _. rewrite switch_runlevel_waiting_quiet by done.
  eexists. split; [reflexivity|].
  rewrite switch_runlevel_valid_effect by done.
  rewrite init_processes_effect.
  cbn [config set_process_count set_table stop_active kill_sigterm
       set_current_runlevel log_message].
  set (st1 := set_current_runlevel n
                (log_message "INFO" (switching_message (current_runlevel st) n) st)).
  destruct (config st); split_and!; try done.
  - intros i p Hi Hp. by apply (stop_active_lookup_below st1).
  - intros i Hi. by apply (stop_active_lookup_above st1).
  - intros i p Hi Hp. by apply (stop_active_lookup_below st1).
  - intros i Hi. by apply (stop_active_lookup_above st1).
  - cbn. by rewrite <- app_assoc.
Qed.

(** Runlevel 3 is requested while [/bin/a] and [/bin/b] run; both terminate
    on SIGTERM. *)
Lemma switch_runlevel_valid_witness :
  exists st',
    switch_runlevel_waiting (fun _ => wait_returns [[]]) 3 two_services = Some st'
    /\ current_runlevel st' = 3%Z
    /\ process_count st' = 0%nat
    /\ sigterm_sent st' = (sigterm_sent two_services ++ active_pids two_services)%list
    /\ (forall i p, (i < process_count two_services)%nat ->
          processes two_services !! i = Some p ->
          processes st' !! i = Some (stopped_if_active p))
    /\ (forall i, (process_count two_services <= i)%nat ->
          processes st' !! i = processes two_services !! i)
    /\ fork_calls st' = fork_calls two_services
    /\ log_lines st'
       = (log_lines two_services
          ++ ("INFO", switching_message (current_runlevel two_services) 3)
             :: match config two_services with
                | Some _ => []
                | None => [("ERROR", "Could not open configuration file")]
                end)%list.
Proof.
  apply (switch_runlevel_valid (fun _ => wait_returns [[]]) 3 two_services).
  - unfold MAX_RUNLEVELS. lia.
  - intros i _. cbn. by repeat constructor.
  - unfold config_fits, file_fits. vm_compute. repeat constructor.
Defined.

(** ** A registry without records *)

Lemma live_empty st : process_count st = 0%nat -> live st = [].
Proof. intros H. unfold live. by rewrite H. Qed.

Lemma reap_loop_empty waited st :
  process_count st = 0%nat -> reap_loop waited st = st.
Proof.
  intros H. induction waited as [|[child status] waited IH]; [done|].
  cbn [reap_loop]. destruct (child <=? 0)%Z; [done|].
  assert (Hr : reap_child child st = st).
  { unfold reap_child. by rewrite live_empty. }
  by rewrite Hr.
Qed.

Lemma health_check_pass_empty st :
  process_count st = 0%nat ->
  health_check_pass st = Some (sleep HEALTH_CHECK_INTERVAL st).
Proof.
  intros H. unfold health_check_pass.
  generalize (process_count (sleep HEALTH_CHECK_INTERVAL st) `max` MAX_PROCESSES)%nat.
  intros fuel.
  assert (H' : process_count (sleep HEALTH_CHECK_INTERVAL st) = 0%nat) by done.
  destruct fuel; cbn [health_check_loop]; by rewrite H'.
Qed.

Lemma manage_services_empty verb name st :
  process_count st = 0%nat -> manage_services verb name st = st.
Proof.
  intros H. unfold manage_services. rewrite live_empty by done. cbn.
  by destruct (CLib.strcmp_eq verb "start"), (CLib.strcmp_eq verb "stop").
Qed.

Lemma stop_active_empty st :
  process_count st = 0%nat -> processes (stop_active st) = processes st.
Proof.
  intros H. cbn [stop_active processes set_table kill_sigterm]. rewrite H.
  by rewrite take_0, drop_0.
Qed.

Lemma check_empty deps st :
  process_count st = 0%nat ->
  check_all_dependencies_active deps st = true <-> CLib.strtok_all "," deps = [].
Proof.
  intros H. unfold check_all_dependencies_active.
  destruct (CLib.strtok_all "," deps) as [|dep more]; [done|].
  cbn [all_dependencies_found]. unfold dependency_running.
  rewrite live_empty by done. done.
Qed.

(** X4.  With no record below the process count the supervisor is inert:
    child exits are dropped without a log line, a health scan does nothing
    but sleep its interval, manage start and stop find no service, and a
    dependency list is satisfied only when it names nothing. *)
Theorem empty_registry_is_inert (st : System) :
  process_count st = 0%nat ->
  (forall sig waited, handle_signal sig waited st = st)
  /\ health_check_pass st = Some (sleep HEALTH_CHECK_INTERVAL st)
  /\ (forall verb name, manage_services verb name st = st)
  /\ (forall deps,
        check_all_dependencies_active deps st = true
        <-> CLib.strtok_all "," deps = []).
Proof.
  intros H. split_and!.
  - intros sig waited. unfold handle_signal.
    destruct (sig =? SIGCHLD)%Z; [|done]. by apply reap_loop_empty.
  - by apply health_check_pass_empty.
  - intros verb name. by apply manage_services_empty.
  - intros deps. by apply check_empty.
Qed.

(** The registry of a supervisor that has not started anything. *)
Lemma empty_registry_is_inert_witness :
  (forall sig waited,
     handle_signal sig waited (boot_state None forks_succeed)
     = boot_state None forks_succeed)
  /\ health_check_pass (boot_state None forks_succeed)
     = Some (sleep HEALTH_CHECK_INTERVAL (boot_state None forks_succeed))
  /\ (forall verb name,
        manage_services verb name (boot_state None forks_succeed)
        = boot_state None forks_succeed)
  /\ (forall deps,
        check_all_dependencies_active deps (boot_state None forks_succeed) = true
        <-> CLib.strtok_all "," deps = []).
Proof.
  apply (empty_registry_is_inert (boot_state None forks_succeed)). reflexivity.
Defined.


(** ** The supervisor as a whole *)

Lemma switch_runlevel_fields n st :
  let st' := switch_runlevel n st in
  fork_calls st' = fork_calls st
  /\ ((0 <= n < MAX_RUNLEVELS)%Z ->
      process_count st' = 0%nat /\ processes st' = processes (stop_active st)
      /\ current_runlevel st' = n
      /\ sigterm_sent st' = (sigterm_sent st ++ active_pids st)%list)
  /\ (~ (0 <= n < MAX_RUNLEVELS)%Z ->
      process_count st' = process_count st /\ processes st' = processes st).
Proof.
  cbv zeta. split_and!.
  - unfold switch_runlevel.
    destruct ((n <? 0)%Z || (MAX_RUNLEVELS <=? n)%Z); [done|].
    rewrite init_processes_effect. cbn. by destruct (config st).
  - intros Hn. rewrite switch_runlevel_valid_effect by done.
    rewrite init_processes_effect. cbn. by destruct (config st).
  - intros Hn. unfold switch_runlevel.
    destruct (n <? 0)%Z eqn:Hlo; [done|].
    destruct (MAX_RUNLEVELS <=? n)%Z eqn:Hhi; [done|].
    apply Z.ltb_ge in Hlo. apply Z.leb_gt in Hhi. lia.
Qed.

Lemma switch_runlevel_empty n st :
  process_count st = 0%nat ->
  process_count (switch_runlevel n st) = 0%nat
  /\ processes (switch_runlevel n st) = processes st
  /\ fork_calls (switch_runlevel n st) = fork_calls st
  /\ sigterm_sent (switch_runlevel n st) = sigterm_sent st.
Proof.
  intros H. destruct (switch_runlevel_fields n st) as (Hf & Hvalid & Hinvalid).
  destruct (decide (0 <= n < MAX_RUNLEVELS)%Z) as [Hn|Hn].
  - destruct (Hvalid Hn) as (-> & -> & _ & ->).
    rewrite stop_active_empty by done. split_and!; try done.
    unfold active_pids. rewrite live_empty by done. cbn. by rewrite app_nil_r.
  - destruct (Hinvalid Hn) as (-> & ->). split_and!; try done.
    unfold switch_runlevel.
    destruct (n <? 0)%Z eqn:Hlo; [done|].
    destruct (MAX_RUNLEVELS <=? n)%Z eqn:Hhi; [done|].
    apply Z.ltb_ge in Hlo. apply Z.leb_gt in Hhi. lia.
Qed.



Lemma step_program_empty ev st :
  program_event ev = true -> process_count st = 0%nat ->
  process_count (step ev st) = 0%nat
  /\ fork_calls (step ev st) = fork_calls st
  /\ processes (step ev st) = processes st
  /\ sigterm_sent (step ev st) = sigterm_sent st.
Proof.
  intros Hev H.
  pose proof (manage_services_empty) as Hmanage.
  destruct ev as [|r c d m u|waited| |n| |verb name]; cbn [step]; try done.
  - rewrite init_processes_effect. by destruct (config st).
  - unfold handle_signal. cbn. by rewrite reap_loop_empty.
  - by rewrite health_check_pass_empty.
  - by destruct (switch_runlevel_empty n st H) as (? & ? & ? & ?).
  - unfold reload_configuration. rewrite init_processes_effect. cbn.
    by destruct (config st).
  - by rewrite Hmanage.
Qed.

Lemma main_empty waits argv st :
  process_count st = 0%nat ->
  exists st',
    main waits argv st = Some st'
    /\ process_count st' = 0%nat
    /\ fork_calls st' = S (fork_calls st)
    /\ processes st' = processes st
    /\ sigterm_sent st' = sigterm_sent st.
Proof.
  intros H. unfold main. rewrite init_processes_effect. cbn [config log_message].
  set (st3 := count_fork _).
  assert (H3 : process_count st3 = 0%nat /\ fork_calls st3 = S (fork_calls st)
               /\ processes st3 = processes st /\ sigterm_sent st3 = sigterm_sent st).
  { unfold st3. by destruct (config st). }
  destruct H3 as (Hc & Hf & Hp & Hs).
  assert (Hq : waits_quiet waits st3) by (intros i Hi; rewrite Hc in Hi; lia).
  destruct argv as [|prog [|arg1 rest]]; [by eexists..|].
  destruct (CLib.strcmp_eq arg1 "switch" && (length (prog :: arg1 :: rest) =? 3)%nat).
  - rewrite switch_runlevel_waiting_quiet by done. eexists. split; [reflexivity|].
    destruct (switch_runlevel_empty (atoi (default "" (rest !! 0%nat))) st3 Hc)
      as (-> & -> & -> & ->). done.
  - destruct (CLib.strcmp_eq arg1 "manage"); [|by eexists].
    eexists. split; [reflexivity|].
    unfold manage_services_argv. destruct rest as [|verb [|name rest]]; [done..|].
    by rewrite manage_services_empty.
Qed.

(** X7.  The supervisor as it stands never starts a process.  Whatever the
    command line and the results of [fork], and whatever configuration file
    with no line longer than 255 bytes: [main] reaches its final loop, and
    after it and any sequence of the events the program produces (child
    exits, health scans, runlevel switches, reloads, manage requests) the
    process count is 0, the table still holds its ten zeroed slots, no
    signal was sent, and the only [fork] was the one for the health
    checker. *)
Theorem supervisor_never_starts_a_process
    (waits : nat -> wait_result)
    (cfg : option string) (oracle : nat -> fork_result)
    (argv : list string) (evs : list event) :
  file_fits cfg ->
  forallb program_event evs = true ->
  exists st0,
    main waits argv (boot_state cfg oracle) = Some st0
    /\ let st := run evs st0 in
       process_count st = 0%nat
       /\ processes st = replicate MAX_PROCESSES zero_process
       /\ fork_calls st = 1%nat
       /\ sigterm_sent st = [].
Proof.
  intros _ Hevs.
  destruct (main_empty waits argv (boot_state cfg oracle) eq_refl)
    as (st0 & Hmain & Hc & Hf & Hp & Hs).
  exists st0. split; [done|]. cbv zeta. clear Hmain.
  revert st0 Hc Hf Hp Hs.
  induction evs as [|ev evs IH]; intros st Hc Hf Hp Hs; [done|].
  cbn [forallb] in Hevs. apply andb_prop in Hevs as [Hev Hevs].
  destruct (step_program_empty ev st Hev Hc) as (Hc' & Hf' & Hp' & Hs').
  cbn [run foldl]. apply (IH Hevs); congruence.
Qed.

(** [init switch 3] with the example inittab, followed by a reload, a health
    scan, a manage request and the exit of some child; no child would
    terminate on SIGTERM. *)
Lemma supervisor_never_starts_a_process_witness :
  exists st0,
    main (fun _ => wait_blocks) ["init"; "switch"; "3"]
      (boot_state (Some example_inittab) forks_succeed) = Some st0
    /\ let st :=
         run [Reload; HealthTick; Manage "start" "/usr/sbin/sshd";
              ChildExits [(100%Z, 0%Z)]] st0 in
       process_count st = 0%nat
       /\ processes st = replicate MAX_PROCESSES zero_process
       /\ fork_calls st = 1%nat
       /\ sigterm_sent st = [].
Proof.
  apply (supervisor_never_starts_a_process (fun _ => wait_blocks)
           (Some example_inittab) forks_succeed
           ["init"; "switch"; "3"]
           [Reload; HealthTick; Manage "start" "/usr/sbin/sshd";
            ChildExits [(100%Z, 0%Z)]]).
  - unfold file_fits. vm_compute. repeat constructor.
  - reflexivity.
Defined.

(** ** The command line of main *)

Example atoi_examples :
  atoi "3" = 3%Z /\ atoi " 42x" = 42%Z /\ atoi "-1" = (-1)%Z
  /\ atoi "three" = 0%Z /\ atoi "" = 0%Z
  /\ atoi "4294967297" = 1%Z /\ atoi "2147483648" = (-2147483648)%Z
  /\ atoi "99999999999999999999" = (-1)%Z.
Proof. by vm_compute. Qed.

Lemma atoi_no_number text :
  (forall z rest, Scanf.scan_int text <> Scanf.Matched z rest) -> atoi text = 0%Z.
Proof.
  intros Hnone. unfold atoi, strtol_10.
  destruct (Scanf.scan_int text) as [z rest| |] eqn:Hscan; try done.
  by destruct (Hnone z rest).
Qed.

Lemma main_before_arguments st :
  let st3 := count_fork (init_processes (log_message "INFO" "Starting init..." st)) in
  current_runlevel st3 = current_runlevel st
  /\ processes st3 = processes st
  /\ process_count st3 = process_count st
  /\ sigterm_sent st3 = sigterm_sent st.
Proof.
  cbv zeta. rewrite init_processes_effect. cbn [config log_message].
  by destruct (config st).
Qed.

(** X8.  How [main] reads its command line, started with an empty registry
    and a configuration file with no line longer than 255 bytes.  [main]
    reaches its final loop.  [switch <text>] switches to [atoi] of the
    text, the [int] that the number at the head of the text converts to: it
    is the new runlevel when it lies in 0 .. MAX_RUNLEVELS - 1 and is
    refused otherwise, so a text without a number, for which [atoi] gives
    0, is a switch to runlevel 0, and [4294967297], which converts to 1, is
    a switch to runlevel 1.  [switch] with no number or with more than one
    argument after it, and every first argument other than [switch] and
    [manage], are ignored: the runlevel stays as it was.  In every case the
    table and the process count are unchanged and no signal is sent. *)
Theorem main_command_line
    (waits : nat -> wait_result) (prog : string) (st : System) :
  process_count st = 0%nat ->
  config_fits st ->
  (forall argv, exists st',
      main waits argv st = Some st'
      /\ processes st' = processes st
      /\ process_count st' = 0%nat
      /\ sigterm_sent st' = sigterm_sent st)
  /\ (forall text st',
        main waits [prog; "switch"; text] st = Some st' ->
        ((0 <= atoi text < MAX_RUNLEVELS)%Z -> current_runlevel st' = atoi text)
        /\ (~ (0 <= atoi text < MAX_RUNLEVELS)%Z ->
            current_runlevel st' = current_runlevel st
            /\ last (log_lines st') = Some ("ERROR", "Invalid runlevel")))
  /\ (forall text st',
        main waits [prog; "switch"; text] st = Some st' ->
        (forall z rest, Scanf.scan_int text <> Scanf.Matched z rest) ->
        current_runlevel st' = 0%Z)
  /\ (forall st',
        main waits [prog; "switch"; "4294967297"] st = Some st' ->
        current_runlevel st' = 1%Z)
  /\ (forall argv st',
        main waits argv st = Some st' ->
        argv = [prog] \/ argv = [prog; "switch"]
        \/ (exists a b more, argv = prog :: "switch" :: a :: b :: more)
        \/ (exists arg1 more, argv = prog :: arg1 :: more
                              /\ arg1 <> "switch" /\ arg1 <> "manage") ->
        current_runlevel st' = current_runlevel st).
Proof.
  intros Hc0 _.
  destruct (main_before_arguments st) as (Hr & Hp & Hc & Hs). cbv zeta in *.
  set (st3 := count_fork (init_processes (log_message "INFO" "Starting init..." st)))
    in *.
  assert (Hq : waits_quiet waits st3) by (intros i Hi; rewrite Hc, Hc0 in Hi; lia).
  assert (Hswitch : forall text,
            main waits [prog; "switch"; text] st
            = Some (switch_runlevel (atoi text) st3)).
  { intros text. rewrite <- (switch_runlevel_waiting_quiet waits) by done. done. }
  assert (Hvalid : forall n, (0 <= n < MAX_RUNLEVELS)%Z ->
            current_runlevel (switch_runlevel n st3) = n).
  { intros n Hn. destruct (switch_runlevel_fields n st3) as (_ & Hv & _).
    by destruct (Hv Hn) as (_ & _ & -> & _). }
  split_and!.
  - intros argv.
    destruct (main_empty waits argv st Hc0) as (st' & Hmain & ? & _ & ? & ?).
    by exists st'.
  - intros text st' Hmain. rewrite Hswitch in Hmain.
    injection Hmain as <-. split.
    + apply Hvalid.
    + intros Hn.
      assert (He : switch_runlevel (atoi text) st3
                   = log_message "ERROR" "Invalid runlevel" st3).
      { unfold switch_runlevel.
        destruct (atoi text <? 0)%Z eqn:Hlo; [done|].
        destruct (MAX_RUNLEVELS <=? atoi text)%Z eqn:Hhi; [done|].
        apply Z.ltb_ge in Hlo. apply Z.leb_gt in Hhi. lia. }
      rewrite He. cbn [log_message current_runlevel log_lines].
      split; [done|]. apply last_snoc.
  - intros text st' Hmain Hnone. rewrite Hswitch in Hmain.
    injection Hmain as <-. rewrite (atoi_no_number text Hnone).
    apply Hvalid. unfold MAX_RUNLEVELS. lia.
  - intros st' Hmain. rewrite Hswitch in Hmain. injection Hmain as <-.
    change (atoi "4294967297") with 1%Z.
    apply Hvalid. unfold MAX_RUNLEVELS. lia.
  - intros argv st' Hmain
      [->|[->|[(a & b & more & ->)|(arg1 & more & -> & Hns & Hnm)]]].
    + by injection Hmain as <-.
    + by injection Hmain as <-.
    + by injection Hmain as <-.
    + unfold main in Hmain. fold st3 in Hmain.
      assert (H1 : CLib.strcmp_eq arg1 "switch" = false)
        by by apply String.eqb_neq.
      assert (H2 : CLib.strcmp_eq arg1 "manage" = false)
        by by apply String.eqb_neq.
      rewrite H1, H2 in Hmain. cbn in Hmain. by injection Hmain as <-.
Qed.

(** [init switch 4294967297] at boot with the example inittab. *)
Lemma main_command_line_witness :
  exists st',
    main (fun _ => wait_blocks) ["init"; "switch"; "4294967297"]
      (boot_state (Some example_inittab) forks_succeed) = Some st'
    /\ current_runlevel st' = 1%Z.
Proof.
  destruct (main_command_line (fun _ => wait_blocks) "init"
              (boot_state (Some example_inittab) forks_succeed))
    as (Hret & _ & _ & Hwrap & _).
  - reflexivity.
  - unfold config_fits, file_fits. vm_compute. repeat constructor.
  - destruct (Hret ["init"; "switch"; "4294967297"]) as (st' & Hmain & _).
    exists st'. split; [exact Hmain|]. exact (Hwrap st' Hmain).
Defined.

(** ** More on the SIGCHLD handler *)

Lemma stops_only_refl st : stops_only st st.
Proof. unfold stops_only. split_and!; try done. intros i p Hp. by left. Qed.

Lemma stops_only_trans st1 st2 st3 :
  stops_only st1 st2 -> stops_only st2 st3 -> stops_only st1 st3.
Proof.
  intros (Hc1 & Hr1 & Hf1 & Hs1 & Ht1 & Hl1 & Hp1) (Hc2 & Hr2 & Hf2 & Hs2 & Ht2 & Hl2 & Hp2).
  unfold stops_only. split_and!; try congruence.
  intros i p Hp. destruct (Hp1 i p Hp) as [H|[Hi H]].
  - destruct (Hp2 i p H) as [H'|[Hi' H']]; [by left|]. right. split; [lia|done].
  - destruct (Hp2 i _ H) as [H'|[Hi' H']]; right; by split.
Qed.

Lemma reap_child_stops_only child st : stops_only st (reap_child child st).
Proof.
  unfold reap_child. destruct (list_find _ _) as [[i p]|] eqn:Hfind.
  2: apply stops_only_refl.
  apply list_find_Some in Hfind as (Hp & _ & _).
  unfold live in Hp. apply lookup_take_Some in Hp as [Hp Hi].
  unfold stops_only. cbn. split_and!; try done.
  - by rewrite length_insert.
  - intros j q Hq. destruct (decide (i = j)) as [<-|Hne].
    + right. split; [done|]. rewrite list_lookup_insert_eq.
      * congruence.
      * by eapply lookup_lt_Some.
    + left. by rewrite list_lookup_insert_ne.
Qed.

Lemma reap_loop_stops_only waited st : stops_only st (reap_loop waited st).
Proof.
  revert st. induction waited as [|[child status] waited IH]; intros st.
  { apply stops_only_refl. }
  cbn [reap_loop]. destruct (child <=? 0)%Z; [apply stops_only_refl|].
  eapply stops_only_trans; [apply reap_child_stops_only|apply IH].
Qed.

Lemma handle_signal_stops sig waited st :
  stops_only st (handle_signal sig waited st).
Proof.
  unfold handle_signal. destruct (sig =? SIGCHLD)%Z.
  - apply reap_loop_stops_only.
  - apply stops_only_refl.
Qed.

(** X9.  The SIGCHLD handler only ever marks records stopped.  For every
    signal and every list of reported children it keeps the process count,
    the runlevel and the size of the table, forks nothing, sends no signal
    and does not sleep; every slot holds afterwards what it held before, or,
    below the process count, the stopped version of it.  The recorded
    commands stay as they are. *)
Theorem handle_signal_only_stops (sig : Z) (waited : list (Z * Z)) (st : System) :
  stops_only st (handle_signal sig waited st)
  /\ commands (handle_signal sig waited st) = commands st.
Proof.
  unfold handle_signal. destruct (sig =? SIGCHLD)%Z.
  - split; [apply reap_loop_stops_only|apply commands_reap_loop].
  - split; [apply stops_only_refl|done].
Qed.

Lemma stops_only_running dep st st' :
  stops_only st st' -> running dep st' -> running dep st.
Proof.
  intros (Hc & _ & _ & _ & _ & Hl & Hp) (q & Hq & Hcmd & Hstate).
  unfold live in Hq. apply elem_of_take in Hq as (i & Hq & Hi).
  rewrite Hc in Hi.
  assert (His : is_Some (processes st !! i)).
  { apply lookup_lt_is_Some. rewrite <- Hl. by eapply lookup_lt_Some. }
  destruct His as [p Hpi].
  destruct (Hp i p Hpi) as [H|[_ H]]; rewrite Hq in H; simplify_eq.
  exists p. split; [|done]. unfold live. apply elem_of_take. by exists i.
Qed.

(** X10.  A child exit never satisfies a dependency: a dependency list that
    is satisfied after the SIGCHLD handler ran was satisfied before. *)
Theorem child_exit_never_satisfies (deps : string) (sig : Z)
    (waited : list (Z * Z)) (st : System) :
  check_all_dependencies_active deps (handle_signal sig waited st) = true ->
  check_all_dependencies_active deps st = true.
Proof.
  unfold check_all_dependencies_active. rewrite !all_dependencies_found_spec.
  intros H. eapply Forall_impl; [exact H|]. intros dep.
  apply stops_only_running. apply handle_signal_stops.
Qed.

(** [/bin/b] exits; the dependency on [/bin/a] is satisfied before and
    after. *)
Lemma child_exit_never_satisfies_witness :
  check_all_dependencies_active "/bin/a" two_services = true.
Proof.
  apply (child_exit_never_satisfies "/bin/a" SIGCHLD [(101%Z, 0%Z)] two_services).
  reflexivity.
Defined.

(** The other direction fails: the exit of [/bin/a] takes the dependency
    away. *)
Example child_exit_unsatisfies :
  check_all_dependencies_active "/bin/a" two_services = true
  /\ check_all_dependencies_active "/bin/a"
       (handle_signal SIGCHLD [(100%Z, 0%Z)] two_services) = false.
Proof. by vm_compute. Qed.

Lemma reap_child_again child st :
  reap_child child (reap_child child st)
  = match list_find (fun p => pid p = child) (live st) with
    | Some (_, p) =>
        log_message "INFO" (finished_message (command p) child) (reap_child child st)
    | None => st
    end.
Proof.
  unfold reap_child at 2 3.
  destruct (list_find _ (live st)) as [[i p]|] eqn:Hfind.
  2: { unfold reap_child. by rewrite Hfind. }
  apply list_find_Some in Hfind as (Hp & Hpid & Hfirst).
  pose proof Hp as Hp'. unfold live in Hp'. apply lookup_take_Some in Hp' as [Hp' Hi].
  set (st1 := set_table _ _ _).
  assert (Hlive1 : live st1 = <[i := mark_stopped p]> (live st)).
  { unfold live, st1. cbn. by rewrite take_insert_lt. }
  assert (Hfind1 : list_find (fun q => pid q = child) (live st1)
                   = Some (i, mark_stopped p)).
  { apply list_find_Some. rewrite Hlive1. split_and!.
    - apply list_lookup_insert_eq. by eapply lookup_lt_Some.
    - done.
    - intros j q Hq Hj. rewrite list_lookup_insert_ne in Hq by lia.
      by eapply Hfirst. }
  unfold reap_child. rewrite Hfind1. unfold st1. cbn.
  by rewrite list_insert_insert_eq.
Qed.

(** X11.  A stopped record keeps its pid.  When the same pid is reported
    again (the kernel gave it to a later process), the handler finds the
    same first record once more: the table is what it was after the first
    report, and the same INFO line is logged a second time. *)
Theorem child_exit_reported_twice (child s1 s2 : Z) (st : System) :
  (0 < child)%Z ->
  let once := handle_signal SIGCHLD [(child, s1)] st in
  let twice := handle_signal SIGCHLD [(child, s1); (child, s2)] st in
  processes twice = processes once
  /\ process_count twice = process_count once
  /\ (forall p, p ∈ live st -> pid p = child ->
        exists cmd,
          log_lines once = (log_lines st ++ [("INFO", finished_message cmd child)])%list
          /\ log_lines twice
             = (log_lines st ++ [("INFO", finished_message cmd child);
                                 ("INFO", finished_message cmd child)])%list)
  /\ ((forall p, p ∈ live st -> pid p <> child) -> twice = st).
Proof.
  intros Hpos. cbv zeta.
  assert (H1 : handle_signal SIGCHLD [(child, s1)] st = reap_child child st)
    by by apply handle_signal_one.
  assert (H2 : handle_signal SIGCHLD [(child, s1); (child, s2)] st
               = reap_child child (reap_child child st)).
  { unfold handle_signal. cbn.
    destruct (child <=? 0)%Z eqn:H; [apply Z.leb_le in H; lia|done]. }
  rewrite H1, H2, reap_child_again.
  destruct (list_find (fun p => pid p = child) (live st)) as [[i p]|] eqn:Hfind.
  - split_and!; try done.
    + intros q Hq Hpid. exists (command p). unfold reap_child. rewrite Hfind.
      cbn. split; [done|]. by rewrite <- app_assoc.
    + intros Hnone. apply list_find_Some in Hfind as (Hp & Hpid & _).
      destruct (Hnone p); [|done]. by eapply list_elem_of_lookup_2.
  - assert (Hr : reap_child child st = st).
    { unfold reap_child. by rewrite Hfind. }
    rewrite Hr. split_and!; try done.
    intros q Hq Hpid. apply list_find_None in Hfind.
    rewrite Forall_forall in Hfind. by destruct (Hfind q Hq).
Qed.

(** Pid 100 is reported twice after [/bin/a] was started with it. *)
Lemma child_exit_reported_twice_witness :
  let once := handle_signal SIGCHLD [(100%Z, 0%Z)] one_service in
  let twice := handle_signal SIGCHLD [(100%Z, 0%Z); (100%Z, 9%Z)] one_service in
  processes twice = processes once
  /\ process_count twice = process_count once
  /\ (forall p, p ∈ live one_service -> pid p = 100%Z ->
        exists cmd,
          log_lines once
          = (log_lines one_service ++ [("INFO", finished_message cmd 100)])%list
          /\ log_lines twice
             = (log_lines one_service ++ [("INFO", finished_message cmd 100);
                                          ("INFO", finished_message cmd 100)])%list)
  /\ ((forall p, p ∈ live one_service -> pid p <> 100%Z) -> twice = one_service).
Proof.
  apply (child_exit_reported_twice 100 0 9 one_service). lia.
Defined.

(** ** Starting only appends *)

Lemma grows_same st st' :
  processes st' = processes st -> process_count st' = process_count st ->
  (fork_calls st <= fork_calls st')%nat ->
  current_runlevel st' = current_runlevel st ->
  sigterm_sent st' = sigterm_sent st ->
  grows st st'.
Proof.
  intros Hp Hc Hf Hr Hs. unfold grows, keeps_records, live.
  rewrite Hp, Hc. split_and!; try done; lia.
Qed.

Lemma grows_trans st1 st2 st3 : grows st1 st2 -> grows st2 st3 -> grows st1 st3.
Proof.
  intros ((Hc1 & Hk1) & Hm1 & Hf1 & Hd1 & Hr1 & Hs1 & Hl1)
         ((Hc2 & Hk2) & Hm2 & Hf2 & Hd2 & Hr2 & Hs2 & Hl2).
  unfold grows, keeps_records. split_and!; try congruence; try lia.
  rewrite <- Hk1. unfold live in Hk2.
  rewrite <- (Nat.min_l _ _ Hc1), <- !take_take. by rewrite Hk2.
Qed.

Lemma start_process_grows command runlevel dependencies memory_limit cpu_limit st :
  grows st (snd (start_process command runlevel dependencies
                   memory_limit cpu_limit st)).
Proof.
  destruct (start_process_cases command runlevel dependencies memory_limit
              cpu_limit st)
    as [(_ & ->)|[(_ & _ & ->)|[(_ & _ & _ & ->)|(child & Hcap & _ & _ & ->)]]];
    cbn [snd]; try (apply grows_same; cbn; (done || lia)).
  unfold grows, keeps_records, live. cbn.
  split_and!; try done; try lia.
  - by rewrite take_insert_ge.
  - by rewrite length_insert.
Qed.

Lemma retry_loop_grows attempts command runlevel dependencies
    memory_limit cpu_limit st :
  grows st (snd (retry_loop attempts command runlevel dependencies
                   memory_limit cpu_limit st)).
Proof.
  revert st. induction attempts as [|attempts IH]; intros st.
  { by apply grows_same. }
  cbn [retry_loop]. destruct (check_all_dependencies_active dependencies st).
  - apply start_process_grows.
  - eapply grows_trans; [|apply IH]. by apply grows_same.
Qed.

(** X12.  [start_process_with_retry] only appends.  Whatever it is asked to
    start, every record below the old process count is left as it was, at
    most one record is added and at most one [fork] is made, a record is
    added only if a [fork] was made, no signal is sent, and the runlevel and
    the size of the table are unchanged.  The process count does not pass
    MAX_PROCESSES unless it was beyond it already. *)
Theorem start_with_retry_only_appends
    (command : string) (runlevel : Z) (dependencies : string)
    (memory_limit cpu_limit max_retries : Z) (st : System) :
  let st' := snd (start_process_with_retry command runlevel dependencies
                    memory_limit cpu_limit max_retries st) in
  grows st st'
  /\ (process_count st' <= S (process_count st))%nat
  /\ (fork_calls st' <= S (fork_calls st))%nat.
Proof.
  cbv zeta. unfold start_process_with_retry. split.
  { apply retry_loop_grows. }
  generalize (Z.to_nat max_retries). intros attempts. revert st.
  induction attempts as [|attempts IH]; intros st; [cbn; lia|].
  cbn [retry_loop]. destruct (check_all_dependencies_active dependencies st).
  - destruct (start_process_cases command runlevel dependencies memory_limit
                cpu_limit st)
      as [(_ & ->)|[(_ & _ & ->)|[(_ & _ & _ & ->)|(child & Hcap & _ & _ & ->)]]];
      cbn; lia.
  - apply (IH (sleep 1 st)).
Qed.

Lemma live_start_process command runlevel dependencies memory_limit cpu_limit
    st child :
  table_ok st ->
  fst (start_process command runlevel dependencies memory_limit cpu_limit st)
    = Started child ->
  live (snd (start_process command runlevel dependencies memory_limit cpu_limit st))
  = (live st ++ [new_process child command runlevel dependencies
                   memory_limit cpu_limit])%list.
Proof.
  intros Hok.
  destruct (start_process_cases command runlevel dependencies memory_limit
              cpu_limit st)
    as [(_ & ->)|[(_ & _ & ->)|[(_ & _ & _ & ->)|(c & Hcap & _ & _ & ->)]]];
    cbn [fst snd]; intros Hres; try done.
  simplify_eq. unfold live. cbn. unfold table_ok in Hok.
  erewrite take_S_r; [|apply list_lookup_insert_eq; lia].
  by rewrite take_insert_ge by lia.
Qed.

Lemma new_process_short child command runlevel dependencies memory_limit cpu_limit :
  (String.length command < 256)%nat -> (String.length dependencies < 256)%nat ->
  new_process child command runlevel dependencies memory_limit cpu_limit
  = mkProcess child command runlevel true dependencies "running" (0%Z, 0%Z)
      memory_limit cpu_limit.
Proof. intros Hc Hd. unfold new_process. by rewrite !strncpy_short. Qed.

(** X13.  A started service satisfies the dependencies on it.  In a
    registry whose recorded strings are terminated within their arrays,
    after a successful start of a command that is a name a dependency list
    can hold (not empty, without comma) and that, like its dependency list,
    is shorter than 256 bytes, the new record is the last one below the
    process count, it is active and running, and both the dependency on that
    command alone and every dependency list that was satisfied before,
    extended by that command, are satisfied. *)
Theorem started_service_satisfies_dependency
    (command : string) (runlevel : Z) (dependencies : string)
    (memory_limit cpu_limit : Z) (st : System) (child : Z) :
  table_ok st ->
  strings_fit st ->
  fst (start_process command runlevel dependencies memory_limit cpu_limit st)
    = Started child ->
  dependency_name command = true ->
  (String.length command < 256)%nat ->
  (String.length dependencies < 256)%nat ->
  let st' := snd (start_process command runlevel dependencies
                    memory_limit cpu_limit st) in
  last (live st')
    = Some (mkProcess child command runlevel true dependencies "running"
              (0%Z, 0%Z) memory_limit cpu_limit)
  /\ strings_fit st'
  /\ check_all_dependencies_active command st' = true
  /\ (forall names,
        Forall (fun name => dependency_name name = true) names ->
        check_all_dependencies_active (join_commas names) st = true ->
        check_all_dependencies_active (join_commas (names ++ [command])) st' = true).
Proof.
  intros Hok Hfit Hres Hname Hlen Hlend. cbv zeta.
  pose proof (live_start_process _ _ _ _ _ _ _ Hok Hres) as Hlive.
  rewrite new_process_short in Hlive by done.
  assert (Hrun : running command
                   (snd (start_process command runlevel dependencies
                           memory_limit cpu_limit st))).
  { eexists. rewrite Hlive. split; [apply elem_of_app; right; by left|done]. }
  assert (Hold : forall dep, running dep st ->
                   running dep (snd (start_process command runlevel dependencies
                                       memory_limit cpu_limit st))).
  { intros dep (p & Hp & Hc & Hs). exists p. rewrite Hlive.
    split; [apply elem_of_app; by left|done]. }
  split_and!.
  - rewrite Hlive. apply last_snoc.
  - unfold strings_fit. rewrite Hlive. apply Forall_app. split; [done|].
    by apply Forall_singleton.
  - change command with (join_commas [command]) at 1.
    unfold check_all_dependencies_active.
    rewrite strtok_all_join by by constructor.
    apply all_dependencies_found_spec. by constructor.
  - intros names Hnames Hsat. unfold check_all_dependencies_active in *.
    rewrite strtok_all_join in Hsat by done.
    rewrite strtok_all_join by (apply Forall_app; split; [done|by constructor]).
    apply all_dependencies_found_spec. apply all_dependencies_found_spec in Hsat.
    apply Forall_app. split; [|by constructor].
    eapply Forall_impl; [exact Hsat|]. done.
Qed.

(** The first start of [/bin/a]. *)
Lemma started_service_satisfies_dependency_witness :
  let st := boot_state None forks_succeed in
  let st' := snd (start_process "/bin/a" 0 "" 0 0 st) in
  last (live st')
    = Some (mkProcess 100 "/bin/a" 0 true "" "running" (0%Z, 0%Z) 0 0)
  /\ strings_fit st'
  /\ check_all_dependencies_active "/bin/a" st' = true
  /\ (forall names,
        Forall (fun name => dependency_name name = true) names ->
        check_all_dependencies_active (join_commas names) st = true ->
        check_all_dependencies_active (join_commas (names ++ ["/bin/a"])) st' = true).
Proof.
  apply (started_service_satisfies_dependency "/bin/a" 0 "" 0 0
           (boot_state None forks_succeed) 100).
  - reflexivity.
  - apply Forall_nil_2.
  - reflexivity.
  - reflexivity.
  - cbn. lia.
  - cbn. lia.
Defined.

(** ** The retry wrapper, case by case *)

(** X14.  What [start_process_with_retry] does in each case.  With
    [max_retries] of 0 or less it checks nothing: it logs the ERROR line and
    returns false, also when the dependencies are satisfied.  With a
    positive [max_retries] and satisfied dependencies it calls
    [start_process] once, without sleeping, and returns true.  With
    dependencies that are not satisfied it never calls [start_process]: it
    sleeps one second per attempt, the last attempt included, logs the
    ERROR line once and returns false, with the table, the process count and
    the number of forks unchanged. *)
Theorem start_with_retry_outcomes
    (command : string) (runlevel : Z) (dependencies : string)
    (memory_limit cpu_limit max_retries : Z) (st : System) :
  let r := start_process_with_retry command runlevel dependencies
             memory_limit cpu_limit max_retries st in
  ((max_retries <= 0)%Z ->
   r = (false, log_message "ERROR" "Failed to start process after retries" st))
  /\ ((0 < max_retries)%Z ->
      check_all_dependencies_active dependencies st = true ->
      r = (true, snd (start_process command runlevel dependencies
                        memory_limit cpu_limit st))
      /\ seconds_slept (snd r) = seconds_slept st)
  /\ (check_all_dependencies_active dependencies st = false ->
      fst r = false
      /\ processes (snd r) = processes st
      /\ process_count (snd r) = process_count st
      /\ fork_calls (snd r) = fork_calls st
      /\ seconds_slept (snd r) = (seconds_slept st + Z.to_nat max_retries)%nat
      /\ log_lines (snd r)
         = (log_lines st
            ++ [("ERROR", "Failed to start process after retries")])%list).
Proof.
  cbv zeta. unfold start_process_with_retry. split_and!.
  - intros Hn. replace (Z.to_nat max_retries) with 0%nat by lia. done.
  - intros Hn Hsat. destruct (Z.to_nat max_retries) as [|attempts] eqn:Hk; [lia|].
    rewrite retry_loop_satisfied by done. split; [done|]. cbn [snd].
    destruct (start_process_cases command runlevel dependencies memory_limit
                cpu_limit st)
      as [(_ & ->)|[(_ & _ & ->)|[(_ & _ & _ & ->)|(child & _ & _ & _ & ->)]]];
      done.
  - intros Hunmet.
    destruct (retry_loop_unmet (Z.to_nat max_retries) command runlevel dependencies
                memory_limit cpu_limit st Hunmet)
      as (H1 & H2 & H3 & _ & H5 & H6 & H7).
    done.
Qed.

(** ** The health scan *)

Lemma health_check_at_grows i st : grows st (health_check_at i st).
Proof.
  unfold health_check_at. destruct (processes st !! i) as [p|].
  2: by apply grows_same.
  destruct (active p); [by apply grows_same|].
  eapply grows_trans; [|apply retry_loop_grows]. by apply grows_same.
Qed.

Lemma health_check_loop_grows fuel i st st' :
  health_check_loop fuel i st = Some st' -> grows st st'.
Proof.
  revert i st. induction fuel as [|fuel IH]; intros i st; cbn [health_check_loop];
    destruct (process_count st <=? i)%nat; intros H; simplify_eq;
    try by apply grows_same.
  eapply grows_trans; [apply health_check_at_grows|by eapply IH].
Qed.

(** X15.  One pass of [health_check] ends, although the loop bound grows
    while it runs, and it only appends: every record that was in the table
    keeps its place and its contents (an inactive record stays inactive
    after it was restarted), every new record cost one [fork], no signal is
    sent, the runlevel is unchanged, and the process count stays within
    MAX_PROCESSES when it was within it. *)
Theorem health_check_pass_only_appends (st : System) :
  exists st',
    health_check_pass st = Some st'
    /\ step HealthTick st = st'
    /\ grows st st'
    /\ ((process_count st <= MAX_PROCESSES)%nat ->
        (process_count st' <= MAX_PROCESSES)%nat)
    /\ (forall i p, (i < process_count st)%nat ->
          processes st !! i = Some p -> processes st' !! i = Some p).
Proof.
  destruct (health_check_pass_ends st) as [st' Hpass]. exists st'.
  assert (Hg : grows st st').
  { unfold health_check_pass in Hpass. apply health_check_loop_grows in Hpass.
    eapply grows_trans; [|exact Hpass]. by apply grows_same. }
  split_and!; try done.
  - cbn [step]. by rewrite Hpass.
  - destruct Hg as (_ & Hmax & _). lia.
  - intros i p Hi Hp. destruct Hg as ((_ & Hk) & _).
    rewrite <- (lookup_take_lt _ (process_count st)) by done.
    rewrite Hk. unfold live. by rewrite lookup_take_lt.
Qed.

Lemma health_check_loop_all_active fuel i st :
  (forall j p, (j < process_count st)%nat -> processes st !! j = Some p ->
               active p = true) ->
  (process_count st <= fuel + i)%nat ->
  health_check_loop fuel i st = Some st.
Proof.
  intros Hactive. revert i. induction fuel as [|fuel IH]; intros i Hfuel;
    cbn [health_check_loop];
    destruct (process_count st <=? i)%nat eqn:Hi; try done.
  { apply Nat.leb_gt in Hi. lia. }
  apply Nat.leb_gt in Hi.
  assert (Hat : health_check_at i st = st).
  { unfold health_check_at. destruct (processes st !! i) as [p|] eqn:Hp; [|done].
    by rewrite (Hactive i p Hi Hp). }
  rewrite Hat. apply IH. lia.
Qed.

(** X16.  When every record below the process count is active, a pass of
    [health_check] does nothing but sleep its interval. *)
Theorem health_check_pass_all_active (st : System) :
  (forall j p, (j < process_count st)%nat -> processes st !! j = Some p ->
               active p = true) ->
  health_check_pass st = Some (sleep HEALTH_CHECK_INTERVAL st)
  /\ step HealthTick st = sleep HEALTH_CHECK_INTERVAL st.
Proof.
  intros Hactive.
  assert (H : health_check_pass st = Some (sleep HEALTH_CHECK_INTERVAL st)).
  { unfold health_check_pass. apply health_check_loop_all_active; [done|].
    cbn [sleep process_count]. lia. }
  split; [done|]. cbn [step]. by rewrite H.
Qed.

(** [/bin/a] and [/bin/b] both run. *)
Lemma health_check_pass_all_active_witness :
  health_check_pass two_services = Some (sleep HEALTH_CHECK_INTERVAL two_services)
  /\ step HealthTick two_services = sleep HEALTH_CHECK_INTERVAL two_services.
Proof.
  apply (health_check_pass_all_active two_services).
  intros [|[|j]] p Hj Hp; vm_compute in Hj, Hp; [by simplify_eq..|lia].
Defined.

(** ** How much a health scan can add *)

Lemma retry_loop_live attempts command runlevel dependencies
    memory_limit cpu_limit st :
  table_ok st ->
  let st' := snd (retry_loop attempts command runlevel dependencies
                    memory_limit cpu_limit st) in
  (process_count st' = process_count st /\ live st' = live st)
  \/ (process_count st' = S (process_count st)
      /\ exists child,
           live st' = (live st ++ [new_process child command runlevel dependencies
                                     memory_limit cpu_limit])%list).
Proof.
  cbv zeta. revert st. induction attempts as [|attempts IH]; intros st Hok.
  { by left. }
  cbn [retry_loop]. destruct (check_all_dependencies_active dependencies st).
  - cbn [snd].
    pose proof (live_start_process command runlevel dependencies memory_limit
                  cpu_limit st) as Hl.
    destruct (start_process_cases command runlevel dependencies memory_limit
                cpu_limit st)
      as [(_ & Hr)|[(_ & _ & Hr)|[(_ & _ & _ & Hr)|(c & _ & _ & _ & Hr)]]];
      cbv zeta in Hr; rewrite Hr in Hl |- *; cbn [fst snd] in Hl |- *;
      try by left.
    right. split; [done|]. exists (Z.pos c). by eapply Hl.
  - apply (IH (sleep 1 st)). done.
Qed.

Lemma start_process_with_retry_3 command runlevel dependencies
    memory_limit cpu_limit st :
  start_process_with_retry command runlevel dependencies memory_limit cpu_limit 3 st
  = retry_loop 3 command runlevel dependencies memory_limit cpu_limit st.
Proof. reflexivity. Qed.

Lemma inactive_count_app l k :
  inactive_count (l ++ k) = (inactive_count l + inactive_count k)%nat.
Proof. unfold inactive_count. by rewrite filter_app, length_app. Qed.

Lemma health_check_loop_bounded fuel i st st' :
  table_ok st -> count_ok st ->
  health_check_loop fuel i st = Some st' ->
  (process_count st' - process_count st <= inactive_count (drop i (live st)))%nat.
Proof.
  revert i st. induction fuel as [|fuel IH]; intros i st Hok Hcount;
    cbn [health_check_loop];
    destruct (process_count st <=? i)%nat eqn:Hi; intros H; simplify_eq; try lia.
  apply Nat.leb_gt in Hi.
  unfold table_ok in Hok. unfold count_ok in Hcount.
  assert (His : is_Some (processes st !! i)) by (apply lookup_lt_is_Some; lia).
  destruct His as [p Hp].
  assert (Hlp : live st !! i = Some p) by (unfold live; by rewrite lookup_take_lt).
  rewrite (drop_S _ _ _ Hlp).
  pose proof (health_check_at_grows i st) as (_ & Hmax & _ & _ & _ & _ & Hlen).
  assert (Hok1 : table_ok (health_check_at i st)) by (unfold table_ok; congruence).
  assert (Hcount1 : count_ok (health_check_at i st)) by (unfold count_ok; lia).
  specialize (IH (S i) _ Hok1 Hcount1 H).
  unfold health_check_at in *. rewrite Hp in *.
  destruct (active p) eqn:Hactive.
  - unfold inactive_count in *. rewrite filter_cons_False by congruence. done.
  - assert (Hone : inactive_count (p :: drop (S i) (live st))
                   = S (inactive_count (drop (S i) (live st)))).
    { unfold inactive_count. by rewrite filter_cons_True. }
    rewrite Hone.
    destruct (retry_loop_live 3 (command p) (runlevel p) (dependencies p)
                (memory_limit p) (cpu_limit p)
                (log_message "INFO" (restarting_message (command p)) st) Hok)
      as [[Hn Hl]|[Hn [child Hl]]]; cbv zeta in Hn, Hl.
    + rewrite start_process_with_retry_3 in IH.
      change (live (log_message "INFO" (restarting_message (command p)) st))
        with (live st) in Hl.
      change (process_count (log_message "INFO" (restarting_message (command p)) st))
        with (process_count st) in Hn.
      rewrite Hl, Hn in IH. lia.
    + rewrite start_process_with_retry_3 in IH.
      change (live (log_message "INFO" (restarting_message (command p)) st))
        with (live st) in Hl.
      change (process_count (log_message "INFO" (restarting_message (command p)) st))
        with (process_count st) in Hn.
      rewrite Hl, Hn in IH.
      rewrite drop_app_le in IH.
      2: { unfold live. rewrite length_take. lia. }
      rewrite inactive_count_app in IH.
      change (inactive_count [new_process child (command p) (runlevel p)
                                (dependencies p) (memory_limit p) (cpu_limit p)])
        with 0%nat in IH.
      lia.
Qed.

(** X17.  One pass of [health_check] over a table within its bounds adds at
    most as many records as the table had inactive records when the pass
    began: an inactive record is restarted at most once in a pass, and the
    records the pass appends, which the loop reaches as well, are active and
    are not restarted. *)
Theorem health_check_pass_restarts_bounded (st st' : System) :
  table_ok st -> count_ok st ->
  health_check_pass st = Some st' ->
  (process_count st' <= process_count st + inactive_count (live st))%nat.
Proof.
  intros Hok Hcount Hpass. unfold health_check_pass in Hpass.
  apply health_check_loop_bounded in Hpass; [|done..].
  cbn [sleep process_count] in Hpass.
  change (live (sleep HEALTH_CHECK_INTERVAL st)) with (live st) in Hpass.
  rewrite drop_0 in Hpass. lia.
Qed.

(** [/bin/a] has exited; the pass restarts it once. *)
Lemma health_check_pass_restarts_bounded_witness :
  let st := handle_signal SIGCHLD [(100%Z, 0%Z)] one_service in
  (process_count (step HealthTick st) <= process_count st + inactive_count (live st))%nat.
Proof.
  apply (health_check_pass_restarts_bounded
           (handle_signal SIGCHLD [(100%Z, 0%Z)] one_service)
           (step HealthTick (handle_signal SIGCHLD [(100%Z, 0%Z)] one_service)));
    [reflexivity|vm_compute; lia|reflexivity].
Defined.

(** ** The bounds of the table *)

Lemma step_count_ok ev st : count_ok st -> count_ok (step ev st).
Proof.
  unfold count_ok. intros Hc.
  destruct ev as [|r c d m u|waited| |n| |verb name]; cbn [step].
  - rewrite init_processes_effect. by destruct (config st).
  - unfold init_processes_entry. destruct (r =? current_runlevel st)%Z; [|done].
    pose proof (retry_loop_grows 3 c r d m u st) as (_ & Hmax & _). 
    rewrite start_process_with_retry_3. lia.
  - unfold handle_signal. cbn. by rewrite reap_loop_count.
  - destruct (health_check_pass st) as [st'|] eqn:Hpass; [|done].
    unfold health_check_pass in Hpass.
    apply health_check_loop_grows in Hpass as (_ & Hmax & _).
    change (process_count (sleep HEALTH_CHECK_INTERVAL st))
      with (process_count st) in Hmax.
    change (process_count st' <= MAX_PROCESSES)%nat. lia.
  - destruct (switch_runlevel_fields n st) as (_ & Hvalid & Hinvalid).
    destruct (decide (0 <= n < MAX_RUNLEVELS)%Z) as [Hn|Hn].
    + destruct (Hvalid Hn) as (-> & _). lia.
    + by destruct (Hinvalid Hn) as (-> & _).
  - unfold reload_configuration. rewrite init_processes_effect. cbn.
    destruct (config st); cbn; lia.
  - unfold manage_services.
    destruct (CLib.strcmp_eq verb "start").
    + destruct (list_find _ _) as [[i p]|]; [|done].
      pose proof (start_process_grows (command p) (runlevel p) (dependencies p)
                    (memory_limit p) (cpu_limit p) st) as (_ & Hmax & _).
      lia.
    + destruct (CLib.strcmp_eq verb "stop"); [|done].
      by destruct (list_find _ _) as [[i p]|].
Qed.

(** X18.  The table is never overrun.  When the supervisor boots the table
    has MAX_PROCESSES slots and the process count is 0; every operation
    keeps the number of slots and keeps the process count at MAX_PROCESSES
    or below; so after every sequence of operations each record that was
    counted lies in a slot of the table. *)
Theorem table_bounds_invariant :
  (forall cfg oracle,
     table_ok (boot_state cfg oracle) /\ count_ok (boot_state cfg oracle))
  /\ (forall ev st, table_ok st -> count_ok st ->
        table_ok (step ev st) /\ count_ok (step ev st))
  /\ (forall evs cfg oracle,
        let st := run evs (boot_state cfg oracle) in
        table_ok st /\ count_ok st
        /\ length (live st) = process_count st).
Proof.
  assert (Hrun : forall evs st, table_ok st -> count_ok st ->
            table_ok (run evs st) /\ count_ok (run evs st)).
  { induction evs as [|ev evs IH]; intros st Hok Hc; [done|].
    cbn [run foldl]. apply IH; [by apply step_table_ok|by apply step_count_ok]. }
  split_and!.
  - intros cfg oracle. split; [done|]. unfold count_ok. cbn. lia.
  - intros ev st Hok Hc. split; [by apply step_table_ok|by apply step_count_ok].
  - intros evs cfg oracle. cbv zeta.
    destruct (Hrun evs (boot_state cfg oracle)) as [Hok Hc];
      [done|unfold count_ok; cbn; lia|].
    split_and!; try done. unfold live. rewrite length_take.
    unfold table_ok in Hok. unfold count_ok in Hc. lia.
Qed.

(** ** manage stop and restarts *)

(** X19.  [manage stop <name>] acts on the first record below the process
    count that has the command [name] and is active: it sends SIGTERM to
    its pid and marks it stopped, without waiting for the child, logging or
    forking, and leaves every other record as it is.  When no such record
    exists, and for every verb other than start and stop, nothing changes. *)
Theorem manage_stop_first_active (name : string) (st : System) :
  let st' := manage_services "stop" name st in
  ((forall p, p ∈ live st -> command p = name -> active p = false) -> st' = st)
  /\ (forall i p,
        (i < process_count st)%nat -> processes st !! i = Some p ->
        command p = name -> active p = true ->
        (forall j q, (j < i)%nat -> processes st !! j = Some q ->
                     ~ (command q = name /\ active q = true)) ->
        processes st' = <[i := mark_stopped p]> (processes st)
        /\ sigterm_sent st' = (sigterm_sent st ++ [pid p])%list
        /\ log_lines st' = log_lines st
        /\ process_count st' = process_count st
        /\ fork_calls st' = fork_calls st
        /\ current_runlevel st' = current_runlevel st)
  /\ (forall verb, verb <> "start" -> verb <> "stop" ->
        manage_services verb name st = st).
Proof.
  cbv zeta. split_and!.
  - intros Hnone. unfold manage_services. cbn.
    assert (Hfind : list_find (fun p => command p = name /\ active p = true) (live st)
                    = None).
    { apply list_find_None, Forall_forall. intros p Hp [Hc Ha].
      rewrite (Hnone p Hp Hc) in Ha. done. }
    by rewrite Hfind.
  - intros i p Hi Hp Hc Ha Hfirst. unfold manage_services. cbn.
    assert (Hfind : list_find (fun p => command p = name /\ active p = true) (live st)
                    = Some (i, p)).
    { apply list_find_Some. split; [|split].
      - unfold live. by rewrite lookup_take_lt.
      - done.
      - intros j q Hq Hj. unfold live in Hq.
        apply lookup_take_Some in Hq as [Hq _]. by eapply Hfirst. }
    by rewrite Hfind.
  - intros verb H1 H2. unfold manage_services.
    apply String.eqb_neq in H1, H2. unfold CLib.strcmp_eq. by rewrite H1, H2.
Qed.

(** X20.  What a restart by the health scan does.  In a registry whose
    recorded strings are terminated within their arrays, for an inactive
    record at an index [i] below the process count: when the table has
    room, the dependencies of the record are satisfied and [fork] succeeds,
    the scan logs the restart and the start, and appends a record for the
    new child with the command, runlevel, dependencies and limits of the
    inactive record; the inactive record itself stays in its slot, still
    inactive.  When the dependencies are not satisfied the scan sleeps three
    seconds, logs the restart and the ERROR line and adds nothing. *)
Theorem health_check_restart (i : nat) (p : Process) (st : System) :
  table_ok st -> strings_fit st ->
  (i < process_count st)%nat -> processes st !! i = Some p -> active p = false ->
  let st' := health_check_at i st in
  ((process_count st < MAX_PROCESSES)%nat ->
   check_all_dependencies_active (dependencies p) st = true ->
   forall child, fork_oracle st (fork_calls st) = fork_child child ->
     process_count st' = S (process_count st)
     /\ live st'
        = (live st ++ [mkProcess (Z.pos child) (command p) (runlevel p) true
                         (dependencies p) "running" (0%Z, 0%Z)
                         (memory_limit p) (cpu_limit p)])%list
     /\ strings_fit st'
     /\ processes st' !! i = Some p
     /\ log_lines st'
        = (log_lines st
           ++ [("INFO", restarting_message (command p));
               ("INFO", started_message (command p) (Z.pos child) (runlevel p))])%list)
  /\ (check_all_dependencies_active (dependencies p) st = false ->
      processes st' = processes st
      /\ process_count st' = process_count st
      /\ fork_calls st' = fork_calls st
      /\ seconds_slept st' = (seconds_slept st + 3)%nat
      /\ log_lines st'
         = (log_lines st
            ++ [("INFO", restarting_message (command p));
                ("ERROR", "Failed to start process after retries")])%list).
Proof.
  intros Hok Hfit Hi Hp Hactive. cbv zeta.
  assert (Hlen : (String.length (command p) < 256)%nat
                 /\ (String.length (dependencies p) < 256)%nat).
  { unfold strings_fit in Hfit. rewrite Forall_forall in Hfit. apply Hfit.
    apply list_elem_of_lookup. exists i. unfold live. by rewrite lookup_take_lt. }
  destruct Hlen as [Hlc Hld].
  unfold health_check_at. rewrite Hp, Hactive.
  rewrite start_process_with_retry_3.
  set (st1 := log_message "INFO" (restarting_message (command p)) st).
  split.
  - intros Hcap Hsat child Hfork.
    rewrite retry_loop_satisfied by (unfold st1; by rewrite check_log_message).
    cbn [snd].
    destruct (start_process_cases (command p) (runlevel p) (dependencies p)
                (memory_limit p) (cpu_limit p) st1)
      as [(Hc & Hr)|[(_ & Hd & Hr)|[(_ & _ & Hf & Hr)|(c & _ & _ & Hf & Hr)]]];
      cbv zeta in Hr.
    + cbn in Hc. lia.
    + unfold st1 in Hd. rewrite check_log_message in Hd. congruence.
    + cbn in Hf. congruence.
    + cbn in Hf. assert (c = child) as -> by congruence.
      rewrite Hr. cbn [snd]. unfold table_ok in Hok.
      rewrite new_process_short by done.
      assert (Hlive : forall q,
                live (log_message "INFO"
                        (started_message (command p) (Z.pos child) (runlevel p))
                        (set_table (<[process_count (count_fork st1) := q]>
                                      (processes (count_fork st1)))
                           (S (process_count (count_fork st1))) (count_fork st1)))
                = (live st ++ [q])%list).
      { intros q. unfold live. cbn.
        erewrite take_S_r; [|apply list_lookup_insert_eq; lia].
        by rewrite take_insert_ge by lia. }
      split_and!.
      * done.
      * apply Hlive.
      * unfold strings_fit. rewrite Hlive. apply Forall_app. split; [done|].
        by apply Forall_singleton.
      * cbn. rewrite list_lookup_insert_ne by lia. done.
      * cbn. by rewrite <- app_assoc.
  - intros Hunmet.
    destruct (retry_loop_unmet 3 (command p) (runlevel p) (dependencies p)
                (memory_limit p) (cpu_limit p) st1)
      as (_ & H2 & H3 & _ & H5 & H6 & H7); cbv zeta in *.
    { unfold st1. by rewrite check_log_message. }
    split_and!; try done. rewrite H7. cbn. by rewrite <- app_assoc.
Qed.

(** [/bin/a] has exited and the health scan reaches its record. *)
Lemma health_check_restart_witness :
  let st := handle_signal SIGCHLD [(100%Z, 0%Z)] one_service in
  let p := mkProcess 100 "/bin/a" 0 false "" "stopped" (0%Z, 0%Z) 0 0 in
  let st' := health_check_at 0 st in
  ((process_count st < MAX_PROCESSES)%nat ->
   check_all_dependencies_active (dependencies p) st = true ->
   forall child, fork_oracle st (fork_calls st) = fork_child child ->
     process_count st' = S (process_count st)
     /\ live st'
        = (live st ++ [mkProcess (Z.pos child) (command p) (runlevel p) true
                         (dependencies p) "running" (0%Z, 0%Z)
                         (memory_limit p) (cpu_limit p)])%list
     /\ strings_fit st'
     /\ processes st' !! 0%nat = Some p
     /\ log_lines st'
        = (log_lines st
           ++ [("INFO", restarting_message (command p));
               ("INFO", started_message (command p) (Z.pos child) (runlevel p))])%list)
  /\ (check_all_dependencies_active (dependencies p) st = false ->
      processes st' = processes st
      /\ process_count st' = process_count st
      /\ fork_calls st' = fork_calls st
      /\ seconds_slept st' = (seconds_slept st + 3)%nat
      /\ log_lines st'
         = (log_lines st
            ++ [("INFO", restarting_message (command p));
                ("ERROR", "Failed to start process after retries")])%list).
Proof.
  apply (health_check_restart 0
           (mkProcess 100 "/bin/a" 0 false "" "stopped" (0%Z, 0%Z) 0 0)
           (handle_signal SIGCHLD [(100%Z, 0%Z)] one_service)).
  - reflexivity.
  - apply Forall_singleton. split; cbn; lia.
  - vm_compute. lia.
  - reflexivity.
  - reflexivity.
Defined.

(** ** More on the resource caps *)

(** X21.  [set_resource_limits] tries its three files one after the other,
    each whether or not the ones before it could be opened: the files
    written are, in this order, those of the memory limit, the CPU quota
    and the cgroup membership that can be opened.  The first two are
    opened for writing, the third for appending, and what is appended is
    the decimal pid. *)
Theorem resource_limits_best_effort
    (fopen_ok : string -> bool) (self memory_limit cpu_limit : Z) :
  let ws := set_resource_limits fopen_ok self memory_limit cpu_limit in
  map path ws
    = filter (fun p => fopen_ok p = true)
        [MEMORY_LIMIT_FILE; CPU_QUOTA_FILE; CGROUP_PROCS_FILE]
  /\ writes_to CGROUP_PROCS_FILE ws
     = (if fopen_ok CGROUP_PROCS_FILE then [CLib.fmt_d self] else [])
  /\ Forall (fun w => mode w = if String.eqb (path w) CGROUP_PROCS_FILE
                               then "a" else "w") ws.
Proof.
  cbv zeta. unfold set_resource_limits, write_if_open, writes_to.
  rewrite !filter_cons, filter_nil.
  destruct (fopen_ok MEMORY_LIMIT_FILE) eqn:H1, (fopen_ok CPU_QUOTA_FILE) eqn:H2,
    (fopen_ok CGROUP_PROCS_FILE) eqn:H3;
    repeat case_decide; try congruence;
    (split_and!; [reflexivity|reflexivity|repeat constructor]).
Qed.

(** ** The log file *)

Section LogFileProperties.

Import LogFile.

Lemma string_length_app s t :
  String.length (s ++ t) = (String.length s + String.length t)%nat.
Proof.
  induction s as [|c s IH]; [done|]. rewrite string_app_cons. cbn. by rewrite IH.
Qed.

Lemma st_size_app s t : st_size (s ++ t) = (st_size s + st_size t)%Z.
Proof. unfold st_size. rewrite string_length_app. lia. Qed.

Lemma rotated_name_not_log t : rotated_name t <> LOG_FILE.
Proof.
  unfold rotated_name, CLib.snprintf, LOG_FILE.
  generalize (CLib.fmt_d (t mod 2 ^ 32)). intros d.
  change ("/var/log/init.log" ++ "." ++ d)
    with (String "/" (String "v" (String "a" (String "r" (String "/"
          (String "l" (String "o" (String "g" (String "/" (String "i"
          (String "n" (String "i" (String "t" (String "." (String "l"
          (String "o" (String "g" (String "." d)))))))))))))))))).
  cbn [String.substring Nat.sub]. congruence.
Qed.

Lemma rotate_at_big limit k fs old :
  fs !! LOG_FILE = Some old -> (limit <= st_size old)%Z -> rename_ok k = true ->
  rotate_at limit k fs = <[rotated_name (now k) := old]> (delete LOG_FILE fs).
Proof.
  intros Hold Hbig Hren. unfold rotate_at, rename. rewrite Hold, Hren.
  destruct (limit <=? st_size old)%Z eqn:H; [done|]. apply Z.leb_gt in H. lia.
Qed.

Lemma rotated_name_int t :
  (0 <= t < 2 ^ 31)%Z ->
  rotated_name t = CLib.snprintf 256 (LOG_FILE ++ "." ++ CLib.fmt_d t).
Proof. intros Ht. unfold rotated_name. by rewrite Z.mod_small by lia. Qed.

(** X22.  When LOG_FILE has reached the size limit and [rename] succeeds, at
    a time in seconds that fits an [int] (0 <= time < 2^31), [log_message]
    moves the file to the name made of LOG_FILE, a dot and the time in
    seconds, replacing whatever was stored under that name, and starts
    LOG_FILE afresh with the new record alone (or leaves it missing when it
    cannot be opened).  No other file is touched. *)
Theorem log_rotation_moves_file
    (limit : Z) (k : kernel) (level message : string)
    (fs : gmap string string) (old : string) :
  (0 <= now k < 2 ^ 31)%Z ->
  fs !! LOG_FILE = Some old -> (limit <= st_size old)%Z -> rename_ok k = true ->
  let fs' := log_message_at limit k level message fs in
  let moved := CLib.snprintf 256 (LOG_FILE ++ "." ++ CLib.fmt_d (now k)) in
  fs' !! moved = Some old
  /\ fs' !! LOG_FILE
     = (if fopen_ok k then Some (record_text level message) else None)
  /\ (forall p, p <> LOG_FILE -> p <> moved -> fs' !! p = fs !! p)
  /\ (limit = MAX_LOG_SIZE -> fs' = log_message k level message fs).
Proof.
  intros Hnow Hold Hbig Hren. cbv zeta.
  rewrite <- (rotated_name_int (now k) Hnow).
  assert (Hprog : limit = MAX_LOG_SIZE ->
            log_message_at limit k level message fs = log_message k level message fs).
  { by intros ->. }
  pose proof (rotated_name_not_log (now k)) as Hne.
  assert (Hne' : LOG_FILE <> rotated_name (now k)) by congruence.
  split_and!; [| | |exact Hprog]; clear Hprog;
    unfold log_message_at, append_record;
    rewrite (rotate_at_big limit k fs old) by done;
    destruct (fopen_ok k); try (intros p Hp1 Hp2); by simplify_map_eq.
Qed.

(** A limit of 4 bytes, a log of 5 bytes and a file left by an earlier
    rotation in the same second. *)
Lemma log_rotation_moves_file_witness :
  let k := mkKernel 1700000000 true true in
  let fs : gmap string string :=
    {[ LOG_FILE := "12345"; "/var/log/init.log.1700000000" := "earlier" ]} in
  let fs' := log_message_at 4 k "INFO" "Starting init..." fs in
  let moved := CLib.snprintf 256 (LOG_FILE ++ "." ++ CLib.fmt_d (now k)) in
  fs' !! moved = Some "12345"
  /\ fs' !! LOG_FILE
     = (if fopen_ok k then Some (record_text "INFO" "Starting init...") else None)
  /\ (forall p, p <> LOG_FILE -> p <> moved -> fs' !! p = fs !! p)
  /\ (4%Z = MAX_LOG_SIZE -> fs' = log_message k "INFO" "Starting init..." fs).
Proof.
  apply (log_rotation_moves_file 4 (mkKernel 1700000000 true true) "INFO"
           "Starting init..."
           {[ LOG_FILE := "12345"; "/var/log/init.log.1700000000" := "earlier" ]}
           "12345");
    [by vm_compute|by vm_compute|by vm_compute|reflexivity].
Defined.

(** X23.  When LOG_FILE can be opened and a due rotation succeeds, the file
    ends with the new record and is smaller than the limit plus the length
    of that record: what precedes the record is either nothing or the
    contents the file had, and those were below the limit. *)
Theorem log_message_keeps_file_bounded
    (limit : Z) (k : kernel) (level message : string) (fs : gmap string string) :
  fopen_ok k = true -> rename_ok k = true ->
  exists before,
    log_message_at limit k level message fs !! LOG_FILE
      = Some (before ++ record_text level message)
    /\ ((before = "" /\ (fs !! LOG_FILE = None
                         \/ exists old, fs !! LOG_FILE = Some old
                                        /\ (limit <= st_size old)%Z))
        \/ (fs !! LOG_FILE = Some before /\ (st_size before < limit)%Z))
    /\ ((0 < limit)%Z ->
        (st_size (before ++ record_text level message)
         < limit + st_size (record_text level message))%Z).
Proof.
  intros Hopen Hren. unfold log_message_at, append_record. rewrite Hopen.
  destruct (fs !! LOG_FILE) as [old|] eqn:Hold.
  - destruct (decide (limit <= st_size old)%Z) as [Hbig|Hsmall].
    + rewrite (rotate_at_big limit k fs old) by done.
      pose proof (rotated_name_not_log (now k)) as Hne.
      exists "". rewrite lookup_insert_eq, lookup_insert_ne, lookup_delete_eq by done.
      split_and!; [done| |].
      * left. split; [done|]. right. by exists old.
      * intros Hpos. change ("" ++ record_text level message)
          with (record_text level message). lia.
    + assert (Hrot : rotate_at limit k fs = fs).
      { unfold rotate_at. rewrite Hold.
        destruct (limit <=? st_size old)%Z eqn:H; [apply Z.leb_le in H; lia|done]. }
      rewrite Hrot, lookup_insert_eq, Hold. exists old. cbn [default].
      split_and!; [done| |].
      * right. split; [done|lia].
      * intros _. rewrite st_size_app. lia.
  - assert (Hrot : rotate_at limit k fs = fs).
    { unfold rotate_at. by rewrite Hold. }
    rewrite Hrot, lookup_insert_eq, Hold. exists "". cbn [default].
    split_and!; [done| |].
    + left. split; [done|]. by left.
    + intros Hpos. change ("" ++ record_text level message)
        with (record_text level message). lia.
Qed.

(** The first line ever logged, with the limit of the program. *)
Lemma log_message_keeps_file_bounded_witness :
  let k := mkKernel 1700000000 true true in
  exists before,
    log_message_at MAX_LOG_SIZE k "INFO" "Starting init..." ∅ !! LOG_FILE
      = Some (before ++ record_text "INFO" "Starting init...")
    /\ ((before = "" /\ ((∅ : gmap string string) !! LOG_FILE = None
                         \/ exists old, (∅ : gmap string string) !! LOG_FILE = Some old
                                        /\ (MAX_LOG_SIZE <= st_size old)%Z))
        \/ ((∅ : gmap string string) !! LOG_FILE = Some before
            /\ (st_size before < MAX_LOG_SIZE)%Z))
    /\ ((0 < MAX_LOG_SIZE)%Z ->
        (st_size (before ++ record_text "INFO" "Starting init...")
         < MAX_LOG_SIZE + st_size (record_text "INFO" "Starting init..."))%Z).
Proof.
  apply (log_message_keeps_file_bounded MAX_LOG_SIZE (mkKernel 1700000000 true true)
           "INFO" "Starting init..." ∅); reflexivity.
Defined.

End LogFileProperties.

(** ** The lines init_processes reads *)

Lemma fgets_take_length room s :
  (String.length (fst (CLib.fgets_take room s)) <= room)%nat.
Proof.
  revert s. induction room as [|room IH]; intros s; [done|].
  destruct s as [|c s]; [cbn; lia|]. cbn [CLib.fgets_take].
  destruct (Ascii.eqb c "010"); [cbn; lia|].
  specialize (IH s). destruct (CLib.fgets_take room s) as [l r]. cbn in *. lia.
Qed.

Lemma fgets_take_nonempty room c s :
  fst (CLib.fgets_take (S room) (String c s)) <> "".
Proof.
  cbn [CLib.fgets_take]. destruct (Ascii.eqb c "010"); [done|].
  by destruct (CLib.fgets_take room s) as [l r].
Qed.

Lemma fgets_lines_shape fuel s :
  Forall (fun line => line <> "" /\ (String.length line <= 511)%nat
                      /\ newline_only_last line = true)
    (fgets_lines fuel s).
Proof.
  revert s. induction fuel as [|fuel IH]; intros s; [by constructor|].
  cbn [fgets_lines]. destruct s as [|c s]; [by constructor|].
  unfold CLib.fgets. change (512 - 1)%nat with 511%nat.
  pose proof (fgets_take_line 511 (String c s)) as Hl.
  pose proof (fgets_take_length 511 (String c s)) as Hn.
  pose proof (fgets_take_nonempty 510 c s) as He.
  destruct (CLib.fgets_take 511 (String c s)) as [l r].
  constructor; [done|apply IH].
Qed.

(** X24.  The read loop of [init_processes] takes the configuration file
    apart without losing a byte: the lines it hands to [sscanf], put
    together in order, are the contents of the file.  No line is empty, none
    has more than 511 bytes, so that a longer line of the file is read as
    several, and a newline occurs in a line only as its last byte. *)
Theorem config_lines_cover_file (content : string) :
  foldr String.append "" (config_lines content) = content
  /\ Forall (fun line => line <> "" /\ (String.length line <= 511)%nat
                         /\ newline_only_last line = true)
       (config_lines content)
  /\ (content = "" -> config_lines content = []).
Proof.
  split_and!.
  - apply fgets_lines_whole_file.
  - apply fgets_lines_shape.
  - by intros ->.
Qed.
